(** * Gestione distributori: tanks, stations, registry and the HTTP handlers

    A shallow embedding of [src/app.py] and [src/api_server.py].  The two
    files declare the same domain classes ([Serbatoio], [Distributore]),
    the same seed list [_distributori] and the same bulk price-update
    handler; they differ in [Distributore.to_dict] and in what the
    levels handlers serialise, so the handlers that serialise live in
    the modules [App] and [ApiServer].

    Modelling conventions.
    - A float that only travels (a price, a number in a request body,
      what [float] returns) is a [pyfloat]: a finite double named by the
      rational it is, an infinity, or NaN; the code compares such a
      value with 0 and stores it, no more.  The two zeros are one value,
      as they are to [<] and [==].
    - The quantities of a tank, on which the code computes, are exact
      rationals [Q], the "real" of the specification; the module [Ieee]
      has the same tank on IEEE doubles.
    - What the code takes from the interpreter ([str.lower], [float] on
      a string and on an int) is a [Python]: the development holds for
      any, the interpreter's own included.
    - A [str] is the string of its UTF-8 bytes.
    - A method is a computation [Py S A] over the state [S] of [self]:
      it returns a value or raises, and in both cases leaves a state
      behind (an exception keeps every assignment made before it).
    - The registry is the list of stations; the lock that serialises the
      handlers is not modelled: a handler is one computation on it. *)

From Stdlib Require Import Ascii NArith ZArith QArith Qminmax Lia Lqa Sorted Permutation SpecFloat.
From stdpp Require Import base list strings gmap.

Open Scope Q_scope.
Set Warnings "-register-all".

(** ** Exceptions and computations *)

Inductive exn : Type :=
| ValueError (msg : string)
| TypeError
| KeyError (key : string)
| OverflowError.

Inductive outcome (A : Type) : Type :=
| Returned (a : A)
| Raised (e : exn).
Arguments Returned {A} a.
Arguments Raised {A} e.

Definition Py (S A : Type) : Type := S -> outcome A * S.

Definition ret {S A} (a : A) : Py S A := fun s => (Returned a, s).
Definition raise {S A} (e : exn) : Py S A := fun s => (Raised e, s).
Definition get {S} : Py S S := fun s => (Returned s, s).
Definition put {S} (s' : S) : Py S unit := fun _ => (Returned tt, s').

Definition bind {S A B} (m : Py S A) (k : A -> Py S B) : Py S B :=
  fun s =>
    match m s with
    | (Returned a, s') => k a s'
    | (Raised e, s') => (Raised e, s')
    end.

Notation "x <- m ;; k" := (bind m (fun x => k))
  (at level 100, m at next level, right associativity).

(** [for d in xs: body] over a list of mutable objects.  The body either
    yields an element for the list under construction or nothing; an
    exception stops the loop and leaves the objects as they are then. *)
Fixpoint for_in {A B} (body : Py A (option B)) (xs : list A)
    : outcome (list B) * list A :=
  match xs with
  | [] => (Returned [], [])
  | x :: rest =>
      match body x with
      | (Raised e, x') => (Raised e, x' :: rest)
      | (Returned ob, x') =>
          match for_in body rest with
          | (Raised e, rest') => (Raised e, x' :: rest')
          | (Returned bs, rest') =>
              (Returned (match ob with Some b => b :: bs | None => bs end),
               x' :: rest')
          end
      end
  end.

(** The error taxonomy of the specification.  The code raises
    [ValueError] throughout and tells the cases apart by message. *)
Inductive spec_error : Type :=
| InvalidArgument
| InsufficientLevel
| UnknownFuelKind.

Definition spec_error_of (e : exn) : option spec_error :=
  match e with
  | ValueError msg =>
      if decide (msg = "quantita negativa") then Some InvalidArgument
      else if decide (msg = "Prezzo negativo") then Some InvalidArgument
      else if decide (msg = "livello insufficiente") then Some InsufficientLevel
      else if decide (msg = "Tipo carburante sconosciuto") then Some UnknownFuelKind
      else None
  | TypeError | KeyError _ | OverflowError => None
  end.

(** Python's two-argument [min]: the second argument only when it is
    strictly smaller than the first. *)
Definition py_min (a b : Q) : Q := if Qlt_le_dec b a then b else a.

(** ** Floats that travel *)

Inductive pyfloat : Type :=
| Fin (q : Q)
| PosInf
| NegInf
| NaN.

Coercion Fin : Q >-> pyfloat.

(** [x < 0] *)
Definition negative (x : pyfloat) : bool :=
  match x with
  | Fin q => if Qlt_le_dec q 0 then true else false
  | NegInf => true
  | PosInf | NaN => false
  end.

(** [x == 0] *)
Definition is_zero (x : pyfloat) : bool :=
  match x with
  | Fin q => Qeq_bool q 0
  | PosInf | NegInf | NaN => false
  end.

(** ** Serbatoio *)

Record Serbatoio : Type := mkSerbatoio {
  capacita : Q;
  livello : Q
}.

Definition set_livello (v : Q) : Py Serbatoio unit :=
  fun self => (Returned tt, {| capacita := capacita self; livello := v |}).

Definition aggiungi (quantita : Q) : Py Serbatoio unit :=
  self <- get ;;
  if Qlt_le_dec quantita 0 then raise (ValueError "quantita negativa")
  else set_livello (py_min (capacita self) (livello self + quantita)).

Definition preleva (quantita : Q) : Py Serbatoio unit :=
  self <- get ;;
  if Qlt_le_dec quantita 0 then raise (ValueError "quantita negativa")
  else if Qlt_le_dec (livello self) quantita
       then raise (ValueError "livello insufficiente")
       else set_livello (livello self - quantita).

(** The tank invariant of the specification. *)
Definition tank_ok (s : Serbatoio) : Prop :=
  0 <= livello s /\ livello s <= capacita s.

(** ** Strings *)

(** Lowering on the ASCII range: the letters A..Z move to a..z and
    every other byte stays.  On a string of ASCII characters this is
    [str.lower()]. *)
Definition is_upper (c : ascii) : bool :=
  let n := N_of_ascii c in ((65 <=? n) && (n <=? 90))%N.

Definition lower_ascii (c : ascii) : ascii :=
  if is_upper c then ascii_of_N (N_of_ascii c + 32) else c.

Fixpoint lower (s : string) : string :=
  match s with
  | EmptyString => EmptyString
  | String c s' => String (lower_ascii c) (lower s')
  end.

(** Equality up to the case of ASCII letters, stated without [lower]:
    the strings have the same length and, position by position, the
    same byte or the two cases of one letter. *)
Definition same_letter (a b : ascii) : bool :=
  let m := N_of_ascii a in
  let n := N_of_ascii b in
  ((m =? n) || (is_upper a && (n =? m + 32)) || (is_upper b && (m =? n + 32)))%N.

Fixpoint eq_nocase (s t : string) : bool :=
  match s, t with
  | EmptyString, EmptyString => true
  | String a s', String b t' => same_letter a b && eq_nocase s' t'
  | _, _ => false
  end.

(** A string of ASCII characters only. *)
Fixpoint ascii_only (s : string) : bool :=
  match s with
  | EmptyString => true
  | String c rest => (N_of_ascii c <? 128)%N && ascii_only rest
  end.

(** What the code takes from the interpreter: [s.lower()], [float(s)] on
    a string and [float(n)] on an int, the last two [None] where they
    raise ([ValueError], [OverflowError]). *)
Class Python : Type := {
  str_lower : string -> string;
  float_of_str : string -> option pyfloat;
  float_of_int : Z -> option pyfloat
}.

(** Two facts about [str.lower()] that some statements rest on: on
    ASCII strings it is [lower], and strings equal up to the case of
    their ASCII letters lower to the same string. *)
Definition lowers_ascii {py : Python} : Prop :=
  forall s, ascii_only s = true -> str_lower s = lower s.

Definition lowers_alike {py : Python} : Prop :=
  forall p q, eq_nocase p q = true -> str_lower p = str_lower q.

(** [needle in haystack] on two strings. *)
Fixpoint substring_of (needle haystack : string) : bool :=
  String.prefix needle haystack
  || match haystack with
     | EmptyString => false
     | String _ rest => substring_of needle rest
     end.

(** ** JSON values, as Python sees them after [get_json] *)

Inductive json : Type :=
| JNull
| JBool (b : bool)
| JInt (n : Z)
| JNum (x : pyfloat)
| JStr (s : string)
| JArr (xs : list json)
| JObj (items : list (string * json)).

(** A dict's items in insertion order; a key is looked up from the
    front. *)
Fixpoint dict_get (items : list (string * json)) (key : string) : option json :=
  match items with
  | [] => None
  | (k, v) :: rest => if decide (k = key) then Some v else dict_get rest key
  end.

(** Truth value of [data] in [if not data]. *)
Definition truthy (v : json) : bool :=
  match v with
  | JNull => false
  | JBool b => b
  | JInt n => negb (n =? 0)%Z
  | JNum x => negb (is_zero x)
  | JStr s => negb (String.eqb s "")
  | JArr xs => match xs with [] => false | _ => true end
  | JObj items => match items with [] => false | _ => true end
  end.

(** [key in data]: key membership on a dict, element membership on a
    list, substring on a string, [TypeError] on anything else. *)
Definition py_in (key : string) (data : json) : outcome bool :=
  match data with
  | JObj items => Returned (bool_decide (is_Some (dict_get items key)))
  | JArr xs =>
      Returned (existsb (fun x => match x with
                                  | JStr s => String.eqb s key
                                  | _ => false
                                  end) xs)
  | JStr s => Returned (substring_of key s)
  | JNull | JBool _ | JInt _ | JNum _ => Raised TypeError
  end.

(** [data[key]] with a string key. *)
Definition py_getitem (data : json) (key : string) : outcome json :=
  match data with
  | JObj items =>
      match dict_get items key with
      | Some v => Returned v
      | None => Raised (KeyError key)
      end
  | _ => Raised TypeError
  end.

Record response : Type := mkResponse {
  status : Z;
  body : json
}.

(** [jsonify(x)] answers 200; [jsonify(x), code] answers [code]. *)
Definition jsonify (x : json) : response := {| status := 200; body := x |}.
Definition with_status (r : response) (code : Z) : response :=
  {| status := code; body := body r |}.

Definition error_response (msg : string) : response :=
  with_status (jsonify (JObj [("error", JStr msg)])) 400.

(** What the client sees: Flask turns an exception that leaves the
    handler into a 500. *)
Definition http_status (r : outcome response) : Z :=
  match r with
  | Returned resp => status resp
  | Raised _ => 500
  end.

(** A read-only step: it looks at the state and returns. *)
Definition query {S A} (f : S -> A) : Py S A :=
  s <- get ;; ret (f s).

(** [percentuale] assigns nothing; it is the function of [self] it
    computes, and a call of it is [query percentuale]. *)
Definition percentuale (self : Serbatoio) : Q :=
  if Qeq_bool (capacita self) 0 then 0
  else (livello self / capacita self) * 100.

(** ** Distributore *)

Record Distributore : Type := mkDistributore {
  id : Z;
  nome : string;
  provincia : string;
  indirizzo : string;
  lat : Q;
  lon : Q;
  serbatoio_benzina : Serbatoio;
  serbatoio_diesel : Serbatoio;
  prezzo_benzina : pyfloat;
  prezzo_diesel : pyfloat
}.

Definition with_prezzo_benzina (v : pyfloat) (d : Distributore) : Distributore :=
  {| id := id d; nome := nome d; provincia := provincia d;
     indirizzo := indirizzo d; lat := lat d; lon := lon d;
     serbatoio_benzina := serbatoio_benzina d;
     serbatoio_diesel := serbatoio_diesel d;
     prezzo_benzina := v; prezzo_diesel := prezzo_diesel d |}.

Definition with_prezzo_diesel (v : pyfloat) (d : Distributore) : Distributore :=
  {| id := id d; nome := nome d; provincia := provincia d;
     indirizzo := indirizzo d; lat := lat d; lon := lon d;
     serbatoio_benzina := serbatoio_benzina d;
     serbatoio_diesel := serbatoio_diesel d;
     prezzo_benzina := prezzo_benzina d; prezzo_diesel := v |}.

Definition set_prezzo (tipo : string) (nuovo_prezzo : pyfloat)
    : Py Distributore unit :=
  self <- get ;;
  if negative nuovo_prezzo then raise (ValueError "Prezzo negativo")
  else if decide (tipo = "benzina") then put (with_prezzo_benzina nuovo_prezzo self)
  else if decide (tipo = "diesel") then put (with_prezzo_diesel nuovo_prezzo self)
  else raise (ValueError "Tipo carburante sconosciuto").

(** The seed list, the same in both files. *)
Definition _distributori : list Distributore :=
  [ {| id := 1; nome := "IPERSTAR Ovest"; provincia := "MI";
       indirizzo := "Via Roma 10, Milano"; lat := 45.4642; lon := 9.1900;
       serbatoio_benzina := {| capacita := 10000; livello := 7000 |};
       serbatoio_diesel := {| capacita := 12000; livello := 9000 |};
       prezzo_benzina := 1.90; prezzo_diesel := 1.80 |};
    {| id := 2; nome := "IPERSTAR Sud"; provincia := "MI";
       indirizzo := "Piazza Duomo 1, Milano"; lat := 45.4643; lon := 9.1910;
       serbatoio_benzina := {| capacita := 8000; livello := 2000 |};
       serbatoio_diesel := {| capacita := 10000; livello := 4000 |};
       prezzo_benzina := 1.92; prezzo_diesel := 1.82 |};
    {| id := 3; nome := "IPERSTAR Nord"; provincia := "TO";
       indirizzo := "Corso Francia 2, Torino"; lat := 45.0703; lon := 7.6869;
       serbatoio_benzina := {| capacita := 9000; livello := 9000 |};
       serbatoio_diesel := {| capacita := 11000; livello := 5000 |};
       prezzo_benzina := 1.95; prezzo_diesel := 1.85 |} ].

(** [d.provincia.lower() == provincia.lower()] *)
Definition in_provincia {py : Python} (prov : string) (d : Distributore)
    : bool :=
  String.eqb (str_lower (provincia d)) (str_lower prov).

(** The dict app.py builds inline for one station in its two levels
    handlers. *)
Definition livelli_dict (d : Distributore) : json :=
  JObj [ ("id", JInt (id d));
         ("nome", JStr (nome d));
         ("livello_benzina", JNum (livello (serbatoio_benzina d)));
         ("capacita_benzina", JNum (capacita (serbatoio_benzina d)));
         ("percent_benzina", JNum (percentuale (serbatoio_benzina d)));
         ("livello_diesel", JNum (livello (serbatoio_diesel d)));
         ("capacita_diesel", JNum (capacita (serbatoio_diesel d)));
         ("percent_diesel", JNum (percentuale (serbatoio_diesel d))) ].

(** ** Lookup, ordering and the map entry *)

(** What a handler hands to Flask: a response, or [abort(code, text)],
    which Flask answers with that code. *)
Inductive flask_result : Type :=
| Responded (r : response)
| Aborted (code : Z) (description : string).

Definition flask_status (r : flask_result) : Z :=
  match r with
  | Responded resp => status resp
  | Aborted code _ => code
  end.

(** [find_by_id] walks the registry and returns the first station with
    the id, or [None]. *)
Fixpoint find_by_id (did : Z) (ds : list Distributore) : option Distributore :=
  match ds with
  | [] => None
  | d :: rest => if (id d =? did)%Z then Some d else find_by_id did rest
  end.

(** [sorted(xs, key=...)] is the interpreter's: a stable sort into a new
    list, ascending in the key.  A stable sort has one result; it is
    computed here by insertion, an element going in front of the first
    one whose key is not smaller. *)
Fixpoint insert_by {A} (key : A -> Z) (x : A) (ys : list A) : list A :=
  match ys with
  | [] => [x]
  | y :: rest =>
      if (key x <=? key y)%Z then x :: ys else y :: insert_by key x rest
  end.

Fixpoint sorted_by {A} (key : A -> Z) (xs : list A) : list A :=
  match xs with
  | [] => []
  | x :: rest => insert_by key x (sorted_by key rest)
  end.

(** The dict both files build for one station on the map. *)
Definition mappa_dict (d : Distributore) : json :=
  JObj [ ("id", JInt (id d));
         ("nome", JStr (nome d));
         ("provincia", JStr (provincia d));
         ("lat", JNum (lat d));
         ("lon", JNum (lon d));
         ("prezzo_benzina", JNum (prezzo_benzina d));
         ("prezzo_diesel", JNum (prezzo_diesel d)) ].

(** ** The handlers that differ between the two files *)

Module App.

Definition to_dict (d : Distributore) : json :=
  JObj [ ("id", JInt (id d));
         ("nome", JStr (nome d));
         ("provincia", JStr (provincia d));
         ("indirizzo", JStr (indirizzo d));
         ("lat", JNum (lat d));
         ("lon", JNum (lon d));
         ("prezzo_benzina", JNum (prezzo_benzina d));
         ("prezzo_diesel", JNum (prezzo_diesel d));
         ("livello_benzina", JNum (livello (serbatoio_benzina d)));
         ("capacita_benzina", JNum (capacita (serbatoio_benzina d)));
         ("livello_diesel", JNum (livello (serbatoio_diesel d)));
         ("capacita_diesel", JNum (capacita (serbatoio_diesel d))) ].

Definition api_livelli_provincia {py : Python} (prov : string)
    : Py (list Distributore) response :=
  ds <- get ;;
  let selezionati := List.filter (in_provincia prov) ds in
  match selezionati with
  | [] => ret (jsonify (JArr []))
  | _ => ret (jsonify (JArr (map livelli_dict selezionati)))
  end.

Definition api_elenco_distributori : Py (list Distributore) response :=
  ds <- get ;;
  let ordinati := sorted_by id ds in
  ret (jsonify (JArr (map to_dict ordinati))).

Definition api_livelli_distributore (did : Z)
    : Py (list Distributore) flask_result :=
  ds <- get ;;
  match find_by_id did ds with
  | None => ret (Aborted 404 "Distributore non trovato")
  | Some d => ret (Responded (jsonify (livelli_dict d)))
  end.

Definition api_mappa_distributori : Py (list Distributore) response :=
  ds <- get ;;
  ret (jsonify (JArr (map mappa_dict ds))).

End App.

Module ApiServer.

Definition to_dict (d : Distributore) : json :=
  JObj [ ("id", JInt (id d));
         ("nome", JStr (nome d));
         ("provincia", JStr (provincia d));
         ("indirizzo", JStr (indirizzo d));
         ("lat", JNum (lat d));
         ("lon", JNum (lon d));
         ("prezzo_benzina", JNum (prezzo_benzina d));
         ("prezzo_diesel", JNum (prezzo_diesel d));
         ("livello_benzina", JNum (livello (serbatoio_benzina d)));
         ("capacita_benzina", JNum (capacita (serbatoio_benzina d)));
         ("percent_benzina", JNum (percentuale (serbatoio_benzina d)));
         ("livello_diesel", JNum (livello (serbatoio_diesel d)));
         ("capacita_diesel", JNum (capacita (serbatoio_diesel d)));
         ("percent_diesel", JNum (percentuale (serbatoio_diesel d))) ].

Definition api_livelli_provincia {py : Python} (prov : string)
    : Py (list Distributore) response :=
  ds <- get ;;
  let selezionati := List.filter (in_provincia prov) ds in
  ret (jsonify (JArr (map to_dict selezionati))).

Definition api_elenco_distributori : Py (list Distributore) response :=
  ds <- get ;;
  let ordinati := sorted_by id ds in
  ret (jsonify (JArr (map to_dict ordinati))).

Definition api_livelli_distributore (did : Z)
    : Py (list Distributore) flask_result :=
  ds <- get ;;
  match find_by_id did ds with
  | None => ret (Aborted 404 "Distributore non trovato")
  | Some d => ret (Responded (jsonify (to_dict d)))
  end.

Definition api_mappa_distributori : Py (list Distributore) response :=
  ds <- get ;;
  ret (jsonify (JArr (map mappa_dict ds))).

End ApiServer.

(** The keys of a serialised object, in order. *)
Definition keys_of (v : json) : list string :=
  match v with
  | JObj items => map fst items
  | _ => []
  end.

(** The level-view fields of the specification, under the names they
    have on the wire. *)
Definition level_view_fields : list string :=
  [ "id"; "nome"; "livello_benzina"; "capacita_benzina"; "percent_benzina";
    "livello_diesel"; "capacita_diesel"; "percent_diesel" ].

(** ** The bulk price update, the same in both files *)

Section BulkUpdate.

Context {py : Python}.

(** [float(v)] on a value that came out of JSON. *)
Definition py_float (v : json) : outcome pyfloat :=
  match v with
  | JInt n =>
      match float_of_int n with
      | Some x => Returned x
      | None => Raised OverflowError
      end
  | JNum x => Returned x
  | JBool b => Returned (Fin (if b then 1 else 0))
  | JStr s =>
      match float_of_str s with
      | Some x => Returned x
      | None => Raised (ValueError "could not convert string to float")
      end
  | JNull | JArr _ | JObj _ => Raised TypeError
  end.

(** One of the two blocks
    [if key in data: try: nuovi_prezzi[key] = float(data[key]) except: return ..., 400].
    The result is the early response or the dict to go on with; the
    membership test stands outside the [try], so what it raises leaves
    the handler. *)
Definition leggi_prezzo (key : string) (data : json)
    (nuovi_prezzi : gmap string pyfloat) : outcome (response + gmap string pyfloat) :=
  match py_in key data with
  | Raised e => Raised e
  | Returned false => Returned (inr nuovi_prezzi)
  | Returned true =>
      match py_getitem data key with
      | Raised _ => Returned (inl (error_response ("Prezzo " +:+ key +:+ " non valido")))
      | Returned v =>
          match py_float v with
          | Raised _ => Returned (inl (error_response ("Prezzo " +:+ key +:+ " non valido")))
          | Returned x => Returned (inr (<[key := x]> nuovi_prezzi))
          end
      end
  end.

(** The handler up to the loop: every early [return ..., 400]. *)
Definition valida_prezzi (data : json) : outcome (response + gmap string pyfloat) :=
  if negb (truthy data) then Returned (inl (error_response "Richiesta JSON mancante"))
  else
    match leggi_prezzo "benzina" data ∅ with
    | Raised e => Raised e
    | Returned (inl r) => Returned (inl r)
    | Returned (inr nuovi_prezzi) =>
        match leggi_prezzo "diesel" data nuovi_prezzi with
        | Raised e => Raised e
        | Returned (inl r) => Returned (inl r)
        | Returned (inr nuovi_prezzi) =>
            if decide (size nuovi_prezzi = 0%nat)
            then Returned (inl (error_response "Nessun prezzo fornito"))
            else Returned (inr nuovi_prezzi)
        end
    end.

(** [if tipo in nuovi_prezzi: d.set_prezzo(tipo, nuovi_prezzi[tipo])] *)
Definition aggiorna_prezzo (tipo : string) (nuovi_prezzi : gmap string pyfloat)
    : Py Distributore unit :=
  match nuovi_prezzi !! tipo with
  | Some p => set_prezzo tipo p
  | None => ret tt
  end.

(** The body of the loop; it yields the id appended to [aggiornati]. *)
Definition aggiorna (prov : string) (nuovi_prezzi : gmap string pyfloat)
    : Py Distributore (option Z) :=
  d <- get ;;
  if in_provincia prov d then
    _ <- aggiorna_prezzo "benzina" nuovi_prezzi ;;
    _ <- aggiorna_prezzo "diesel" nuovi_prezzi ;;
    d <- get ;;
    ret (Some (id d))
  else ret None.

(** [data] is what [request.get_json(silent=True)] gives: [JNull] for
    a missing or malformed body (Python's [None]). *)
Definition api_cambia_prezzi_provincia (prov : string) (data : json)
    : Py (list Distributore) response :=
  fun ds =>
    match valida_prezzi data with
    | Raised e => (Raised e, ds)
    | Returned (inl r) => (Returned r, ds)
    | Returned (inr nuovi_prezzi) =>
        match for_in (aggiorna prov nuovi_prezzi) ds with
        | (Raised e, ds') => (Raised e, ds')
        | (Returned aggiornati, ds') =>
            (Returned (jsonify (JObj [("aggiornati", JArr (map JInt aggiornati))])),
             ds')
        end
    end.

End BulkUpdate.

(** ** An interpreter to run examples on *)

(** [float] on a string, for plain decimal literals (an optional sign,
    then digits with at most one point and at least one digit) and the
    spellings nan, inf and -inf.  On these strings, and on strings with
    a character that no float literal has, it is Python's [float]; the
    rounding of a literal to the nearest double, exponents, blanks and
    underscores are not read. *)
Definition digit_of (c : ascii) : option N :=
  let n := N_of_ascii c in
  if ((48 <=? n) && (n <=? 57))%N then Some (n - 48)%N else None.

Fixpoint scan_decimal (s : string) (num : N) (den : positive)
    (frac digits : bool) : option Q :=
  match s with
  | EmptyString => if digits then Some (Z.of_N num # den) else None
  | String c rest =>
      if Ascii.eqb c "."%char
      then (if frac then None else scan_decimal rest num den true digits)
      else match digit_of c with
           | Some d =>
               scan_decimal rest (10 * num + d)%N
                 (if frac then (10 * den)%positive else den) frac true
           | None => None
           end
  end.

Definition decimal_of_str (s : string) : option pyfloat :=
  if String.eqb s "nan" then Some NaN
  else if String.eqb s "inf" then Some PosInf
  else if String.eqb s "-inf" then Some NegInf
  else
    match s with
    | String c rest =>
        if Ascii.eqb c "-"%char
        then option_map (fun q => Fin (- q)) (scan_decimal rest 0 1 false false)
        else if Ascii.eqb c "+"%char
             then option_map Fin (scan_decimal rest 0 1 false false)
             else option_map Fin (scan_decimal s 0 1 false false)
    | EmptyString => None
    end.

(** [float] on an int: the nearest double, ties to the even one, and
    [OverflowError] from 2^1024 - 2^970 on. *)
Definition float_of_Z (n : Z) : option pyfloat :=
  let a := Z.abs n in
  let k := Z.max 0 (Z.log2 a + 1 - 53) in
  let m := Z.shiftr a k in
  let r := (a - Z.shiftl m k)%Z in
  let half := Z.shiftl 1 (k - 1) in
  let m' := if (0 <? k)%Z && ((half <? r)%Z || ((half =? r)%Z && Z.odd m))
            then (m + 1)%Z else m in
  let v := Z.shiftl m' k in
  if (2 ^ 1024 <=? v)%Z then None
  else Some (Fin (inject_Z (Z.sgn n * v))).

(** The interpreter on ASCII text. *)
Definition ascii_python : Python :=
  {| str_lower := lower;
     float_of_str := decimal_of_str;
     float_of_int := float_of_Z |}.

(** ** The bulk update as the specification words it *)

(** A station after [set_price] for each price that is present. *)
Definition applica_prezzi (benzina diesel : option pyfloat) (d : Distributore)
    : Distributore :=
  let d1 := match benzina with
            | Some p => with_prezzo_benzina p d
            | None => d
            end in
  match diesel with
  | Some p => with_prezzo_diesel p d1
  | None => d1
  end.

(** The calls that get it there. *)
Definition set_prezzi (benzina diesel : option pyfloat) : Py Distributore unit :=
  _ <- match benzina with
       | Some p => set_prezzo "benzina" p
       | None => ret tt
       end ;;
  match diesel with
  | Some p => set_prezzo "diesel" p
  | None => ret tt
  end.

(** The dict of new prices with the entries that are present. *)
Definition prezzi_map (benzina diesel : option pyfloat) : gmap string pyfloat :=
  let m := match benzina with
           | Some p => <["benzina" := p]> (∅ : gmap string pyfloat)
           | None => ∅
           end in
  match diesel with
  | Some p => <["diesel" := p]> m
  | None => m
  end.

(** The registry after a bulk update of province [prov], and the ids
    the update reports. *)
Definition aggiorna_provincia {py : Python} (prov : string)
    (benzina diesel : option pyfloat) (ds : list Distributore)
    : list Distributore :=
  map (fun d => if in_provincia prov d
                then applica_prezzi benzina diesel d else d) ds.

Definition ids_provincia {py : Python} (prov : string)
    (ds : list Distributore) : list Z :=
  map id (List.filter (in_provincia prov) ds).

Definition risposta_aggiornati (ids : list Z) : response :=
  {| status := 200; body := JObj [("aggiornati", JArr (map JInt ids))] |}.

Section RequestBodies.

Context {py : Python}.

(** The body entry under a key converts: absent with no price, or a
    value on which [float] returns the price. *)
Definition converts (entry : option json) (price : option pyfloat) : Prop :=
  match entry, price with
  | None, None => True
  | Some v, Some p => py_float v = Returned p
  | _, _ => False
  end.

(** The body entry under a key is a value on which [float] raises. *)
Definition rejects (entry : option json) : Prop :=
  exists v e, entry = Some v /\ py_float v = Raised e.

End RequestBodies.

(** A price that [set_prezzo] takes: one that is not below 0 to [<]. *)
Definition non_negative (price : option pyfloat) : Prop :=
  match price with
  | Some p => negative p = false
  | None => True
  end.

(** The value a serialised object has under a key. *)
Definition obj_get (v : json) (key : string) : option json :=
  match v with
  | JObj items => dict_get items key
  | _ => None
  end.

(** ** The service as a whole *)

(** The routes of the two files, as the requests they answer. *)
Inductive request : Type :=
| GetElenco
| GetLivelliProvincia (prov : string)
| GetLivelliDistributore (did : Z)
| GetMappa
| PutPrezzi (prov : string) (data : json).

(** A handler that returns a response, as Flask sees it. *)
Definition responding {S} (m : Py S response) : Py S flask_result :=
  r <- m ;; ret (Responded r).

Section Routing.

Context {py : Python}.

Definition app_serve (req : request) : Py (list Distributore) flask_result :=
  match req with
  | GetElenco => responding App.api_elenco_distributori
  | GetLivelliProvincia prov => responding (App.api_livelli_provincia prov)
  | GetLivelliDistributore did => App.api_livelli_distributore did
  | GetMappa => responding App.api_mappa_distributori
  | PutPrezzi prov data =>
      responding (api_cambia_prezzi_provincia prov data)
  end.

Definition api_server_serve (req : request)
    : Py (list Distributore) flask_result :=
  match req with
  | GetElenco => responding ApiServer.api_elenco_distributori
  | GetLivelliProvincia prov => responding (ApiServer.api_livelli_provincia prov)
  | GetLivelliDistributore did => ApiServer.api_livelli_distributore did
  | GetMappa => responding ApiServer.api_mappa_distributori
  | PutPrezzi prov data =>
      responding (api_cambia_prezzi_provincia prov data)
  end.

End Routing.

(** The registry after a run of requests, whatever each one answered. *)
Definition registry_after
    (serve : request -> Py (list Distributore) flask_result)
    (reqs : list request) (ds : list Distributore) : list Distributore :=
  fold_left (fun ds req => snd (serve req ds)) reqs ds.

(** Everything of a station but its two prices. *)
Definition senza_prezzi (d : Distributore)
    : Z * string * string * string * Q * Q * Serbatoio * Serbatoio :=
  (id d, nome d, provincia d, indirizzo d, lat d, lon d,
   serbatoio_benzina d, serbatoio_diesel d).

Definition prezzi_ok (d : Distributore) : Prop :=
  negative (prezzo_benzina d) = false /\ negative (prezzo_diesel d) = false.

(** What every request keeps: ids are unique, tanks are within
    capacity, no price is below 0 to [<]. *)
Definition registry_ok (ds : list Distributore) : Prop :=
  NoDup (map id ds) /\
  Forall (fun d => tank_ok (serbatoio_benzina d) /\
                   tank_ok (serbatoio_diesel d) /\ prezzi_ok d) ds.

(** The later price where there is one, the earlier otherwise. *)
Definition later (p2 p1 : option pyfloat) : option pyfloat :=
  match p2 with
  | Some _ => p2
  | None => p1
  end.

(** The order [sorted] puts a list in. *)
Definition key_le {A} (key : A -> Z) (a b : A) : Prop := (key a <= key b)%Z.

(** The requests that can change the registry. *)
Definition is_put (req : request) : bool :=
  match req with
  | PutPrezzi _ _ => true
  | _ => false
  end.

(** ** The tank on IEEE doubles *)

(** [Serbatoio] once more, with the doubles of the interpreter for its
    quantities: [<] is [SFltb], [+] and [-] round to the nearest double,
    and NaN is a value like any other. *)
Module Ieee.

Definition double : Type := spec_float.

(** The double of an int that is one. *)
Definition of_Z (n : Z) : double := binary_normalize 53 1024 n 0 false.

Definition add : double -> double -> double := SFadd 53 1024.
Definition sub : double -> double -> double := SFsub 53 1024.

Definition py_min (a b : double) : double := if SFltb b a then b else a.

Record Serbatoio : Type := mkSerbatoio {
  capacita : double;
  livello : double
}.

Definition set_livello (v : double) : Py Serbatoio unit :=
  fun self => (Returned tt, {| capacita := capacita self; livello := v |}).

Definition aggiungi (quantita : double) : Py Serbatoio unit :=
  self <- get ;;
  if SFltb quantita (of_Z 0) then raise (ValueError "quantita negativa")
  else set_livello (py_min (capacita self) (add (livello self) quantita)).

Definition preleva (quantita : double) : Py Serbatoio unit :=
  self <- get ;;
  if SFltb quantita (of_Z 0) then raise (ValueError "quantita negativa")
  else if SFltb (livello self) quantita
       then raise (ValueError "livello insufficiente")
       else set_livello (sub (livello self) quantita).

(** [0 <= livello <= capacita] *)
Definition tank_ok (s : Serbatoio) : bool :=
  SFleb (of_Z 0) (livello s) && SFleb (livello s) (capacita s).

End Ieee.

(** * Properties *)

(** ** Computations *)

Lemma bind_get {S A} (k : S -> Py S A) (s : S) :
  (x <- get ;; k x) s = k s s.
Proof. reflexivity. Qed.

Lemma bind_returned {S A B} (m : Py S A) (k : A -> Py S B) (s s' : S) (a : A) :
  m s = (Returned a, s') -> (x <- m ;; k x) s = k a s'.
Proof. intros H. unfold bind. now rewrite H. Qed.

Lemma bind_raised {S A B} (m : Py S A) (k : A -> Py S B) (s s' : S) (e : exn) :
  m s = (Raised e, s') -> (x <- m ;; k x) s = (Raised e, s').
Proof. intros H. unfold bind. now rewrite H. Qed.

(** ** Tanks *)

Lemma py_min_Qmin (a b : Q) : py_min a b = Qmin a b.
Proof.
  unfold py_min, Qmin, GenericMinMax.gmin.
  destruct (Qlt_le_dec b a) as [Hlt | Hle].
  - destruct (Qgt_alt a b) as [Hgt _]. now rewrite (Hgt Hlt).
  - destruct (Qle_alt a b) as [Hne _]. specialize (Hne Hle).
    destruct (a ?= b); congruence.
Qed.

Lemma aggiungi_negativa (self : Serbatoio) (quantita : Q) :
  quantita < 0 ->
  aggiungi quantita self = (Raised (ValueError "quantita negativa"), self).
Proof.
  intros Hneg. unfold aggiungi. rewrite bind_get.
  destruct (Qlt_le_dec quantita 0) as [_ | Hge]; [reflexivity |].
  exfalso. apply (Qlt_irrefl 0). now apply Qle_lt_trans with quantita.
Qed.

Lemma aggiungi_ok (self : Serbatoio) (quantita : Q) :
  0 <= quantita ->
  aggiungi quantita self =
  (Returned tt,
   {| capacita := capacita self;
      livello := Qmin (capacita self) (livello self + quantita) |}).
Proof.
  intros Hge. unfold aggiungi. rewrite bind_get.
  destruct (Qlt_le_dec quantita 0) as [Hneg | _].
  - exfalso. apply (Qlt_irrefl 0). now apply Qle_lt_trans with quantita.
  - unfold set_livello. now rewrite py_min_Qmin.
Qed.

Lemma preleva_negativa (self : Serbatoio) (quantita : Q) :
  quantita < 0 ->
  preleva quantita self = (Raised (ValueError "quantita negativa"), self).
Proof.
  intros Hneg. unfold preleva. rewrite bind_get.
  destruct (Qlt_le_dec quantita 0) as [_ | Hge]; [reflexivity |].
  exfalso. apply (Qlt_irrefl 0). now apply Qle_lt_trans with quantita.
Qed.

Lemma preleva_insufficiente (self : Serbatoio) (quantita : Q) :
  0 <= quantita -> livello self < quantita ->
  preleva quantita self = (Raised (ValueError "livello insufficiente"), self).
Proof.
  intros Hge Hgt. unfold preleva. rewrite bind_get.
  destruct (Qlt_le_dec quantita 0) as [Hneg | _].
  - exfalso. apply (Qlt_irrefl 0). now apply Qle_lt_trans with quantita.
  - destruct (Qlt_le_dec (livello self) quantita) as [_ | Hle]; [reflexivity |].
    exfalso. apply (Qlt_irrefl quantita). now apply Qle_lt_trans with (livello self).
Qed.

Lemma preleva_ok (self : Serbatoio) (quantita : Q) :
  0 <= quantita -> quantita <= livello self ->
  preleva quantita self =
  (Returned tt,
   {| capacita := capacita self; livello := livello self - quantita |}).
Proof.
  intros Hge Hle. unfold preleva. rewrite bind_get.
  destruct (Qlt_le_dec quantita 0) as [Hneg | _].
  - exfalso. apply (Qlt_irrefl 0). now apply Qle_lt_trans with quantita.
  - destruct (Qlt_le_dec (livello self) quantita) as [Hgt | _]; [| reflexivity].
    exfalso. apply (Qlt_irrefl quantita). now apply Qle_lt_trans with (livello self).
Qed.

(** C1, on the code: the guards of [preleva] are both false on NaN, so
    from any tank [preleva(nan)] returns and leaves NaN for a level, and
    [0 <= livello <= capacita] no longer holds, as on the tank of 7000
    in 10000 that satisfied it before.  [aggiungi(nan)] does no such
    thing: [min] leaves the capacity for a level there. *)
Theorem preleva_nan_breaks_invariant :
  (forall s : Ieee.Serbatoio,
      Ieee.preleva S754_nan s =
        (Returned tt,
         {| Ieee.capacita := Ieee.capacita s; Ieee.livello := S754_nan |}) /\
      Ieee.tank_ok (snd (Ieee.preleva S754_nan s)) = false) /\
  (let s := {| Ieee.capacita := Ieee.of_Z 10000;
               Ieee.livello := Ieee.of_Z 7000 |} in
   Ieee.tank_ok s = true /\
   Ieee.tank_ok (snd (Ieee.preleva S754_nan s)) = false /\
   Ieee.tank_ok (snd (Ieee.aggiungi S754_nan s)) = true).
Proof.
  split.
  - intros s.
    assert (Hrun : Ieee.preleva S754_nan s =
                   (Returned tt,
                    {| Ieee.capacita := Ieee.capacita s;
                       Ieee.livello := S754_nan |})).
    { unfold Ieee.preleva. rewrite bind_get.
      assert (Hlt : SFltb (Ieee.livello s) S754_nan = false)
        by now destruct (Ieee.livello s) as [[] | [] | | [] ? ?].
      cbn [SFltb SFcompare]. rewrite Hlt.
      unfold Ieee.set_livello, Ieee.sub, SFsub.
      now destruct (Ieee.livello s) as [[] | [] | | [] ? ?]. }
    split; [exact Hrun |]. now rewrite Hrun.
  - vm_compute. repeat split.
Qed.

(** C2: [aggiungi] raises exactly when the amount is negative, with the
    [ValueError] that is the specification's InvalidArgument and the
    tank as it was; otherwise it returns and the level is
    [min(capacita, livello + quantita)].  From 7000 of 10000, adding
    5000 gives 10000. *)
Theorem aggiungi_spec (self : Serbatoio) (quantita : Q) :
  ((exists e, fst (aggiungi quantita self) = Raised e) <-> quantita < 0) /\
  (quantita < 0 ->
     aggiungi quantita self = (Raised (ValueError "quantita negativa"), self) /\
     spec_error_of (ValueError "quantita negativa") = Some InvalidArgument) /\
  (~ quantita < 0 ->
     aggiungi quantita self =
     (Returned tt,
      {| capacita := capacita self;
         livello := Qmin (capacita self) (livello self + quantita) |})) /\
  aggiungi 5000 {| capacita := 10000; livello := 7000 |} =
  (Returned tt, {| capacita := 10000; livello := 10000 |}).
Proof.
  repeat split.
  - intros [e He]. destruct (Qlt_le_dec quantita 0) as [Hneg | Hge]; [assumption |].
    rewrite aggiungi_ok in He by assumption. discriminate He.
  - intros Hneg. rewrite aggiungi_negativa by assumption. now eexists.
  - now apply aggiungi_negativa.
  - intros Hnn. apply aggiungi_ok. now apply Qnot_lt_le.
Qed.

(** C3: [preleva] raises the InvalidArgument [ValueError] on a negative
    amount, the InsufficientLevel one on an amount that is not negative
    and above the level, and otherwise takes the amount off the level;
    after either exception the tank is as it was. *)
Theorem preleva_spec (self : Serbatoio) (quantita : Q) :
  (quantita < 0 ->
     preleva quantita self = (Raised (ValueError "quantita negativa"), self)) /\
  (0 <= quantita /\ livello self < quantita ->
     preleva quantita self = (Raised (ValueError "livello insufficiente"), self)) /\
  (~ quantita < 0 /\ ~ livello self < quantita ->
     preleva quantita self =
     (Returned tt,
      {| capacita := capacita self; livello := livello self - quantita |})) /\
  spec_error_of (ValueError "quantita negativa") = Some InvalidArgument /\
  spec_error_of (ValueError "livello insufficiente") = Some InsufficientLevel.
Proof.
  repeat split.
  - apply preleva_negativa.
  - intros [Hge Hgt]. now apply preleva_insufficiente.
  - intros [Hnn Hng]. apply preleva_ok; now apply Qnot_lt_le.
Qed.

(** C9: [percentuale] is 0 on a tank of capacity 0 whatever the level,
    and [100 * livello / capacita] on any other; a call of it returns
    that number and leaves the tank as it was. *)
Theorem percentuale_spec (self : Serbatoio) :
  (capacita self == 0 -> percentuale self = 0) /\
  (~ capacita self == 0 ->
     percentuale self == 100 * livello self / capacita self) /\
  query percentuale self = (Returned (percentuale self), self).
Proof.
  unfold percentuale. repeat split.
  - intros Hz. now rewrite (Qeq_eq_bool _ _ Hz).
  - intros Hnz. destruct (Qeq_bool (capacita self) 0) eqn:Hb.
    + apply Qeq_bool_eq in Hb. contradiction.
    + field. assumption.
Qed.

(** ** Comparison up to case *)

Lemma lower_ascii_code (a : ascii) :
  N_of_ascii (lower_ascii a) =
  (if is_upper a then N_of_ascii a + 32 else N_of_ascii a)%N.
Proof.
  unfold lower_ascii. destruct (is_upper a) eqn:Hup; [| reflexivity].
  apply N_ascii_embedding.
  unfold is_upper in Hup. apply andb_prop in Hup as [_ Hhi].
  apply N.leb_le in Hhi. lia.
Qed.

Lemma N_of_ascii_inj (a b : ascii) : N_of_ascii a = N_of_ascii b -> a = b.
Proof.
  intros H. rewrite <- (ascii_N_embedding a), <- (ascii_N_embedding b).
  now rewrite H.
Qed.

Lemma lower_ascii_same_letter (a b : ascii) :
  lower_ascii a = lower_ascii b <-> same_letter a b = true.
Proof.
  split.
  - intros H. apply (f_equal N_of_ascii) in H.
    rewrite !lower_ascii_code in H.
    unfold same_letter, is_upper in *.
    destruct (N.leb_spec 65 (N_of_ascii a)), (N.leb_spec (N_of_ascii a) 90),
      (N.leb_spec 65 (N_of_ascii b)), (N.leb_spec (N_of_ascii b) 90);
      simpl in *;
      repeat match goal with
             | |- context [N.eqb ?x ?y] => destruct (N.eqb_spec x y)
             end; simpl; try reflexivity; lia.
  - intros H. apply N_of_ascii_inj. rewrite !lower_ascii_code.
    unfold same_letter, is_upper in *.
    destruct (N.leb_spec 65 (N_of_ascii a)), (N.leb_spec (N_of_ascii a) 90),
      (N.leb_spec 65 (N_of_ascii b)), (N.leb_spec (N_of_ascii b) 90);
      simpl in *;
      repeat match type of H with
             | context [N.eqb ?x ?y] => destruct (N.eqb_spec x y)
             end; simpl in H; try discriminate H; lia.
Qed.

(** Comparing the lowered strings is equality up to the case of ASCII
    letters. *)
Lemma lower_eq_nocase (s t : string) :
  lower s = lower t <-> eq_nocase s t = true.
Proof.
  revert t. induction s as [| a s IH]; intros [| b t]; simpl;
    try (split; [discriminate | discriminate]); [tauto |].
  rewrite andb_true_iff, <- lower_ascii_same_letter, <- IH.
  split.
  - intros H. now inversion H.
  - intros [Ha Hs]. now rewrite Ha, Hs.
Qed.

Lemma lower_ascii_idempotent (c : ascii) : lower_ascii (lower_ascii c) = lower_ascii c.
Proof.
  apply N_of_ascii_inj. rewrite lower_ascii_code.
  unfold is_upper. rewrite !lower_ascii_code. unfold is_upper.
  destruct (N.leb_spec 65 (N_of_ascii c)), (N.leb_spec (N_of_ascii c) 90);
    simpl;
    repeat match goal with
           | |- context [N.leb ?x ?y] => destruct (N.leb_spec x y)
           end; simpl; lia.
Qed.

Lemma lower_idempotent (s : string) : lower (lower s) = lower s.
Proof.
  induction s as [| c s IH]; simpl; [reflexivity |].
  now rewrite lower_ascii_idempotent, IH.
Qed.

(** The interpreter on ASCII text has the two facts. *)
Lemma ascii_python_lowers_ascii : lowers_ascii (py := ascii_python).
Proof. intros s _. reflexivity. Qed.

Lemma ascii_python_lowers_alike : lowers_alike (py := ascii_python).
Proof. intros p q H. now apply lower_eq_nocase. Qed.

Lemma in_provincia_iff {py : Python} (prov : string) (d : Distributore) :
  in_provincia prov d = true <-> str_lower (provincia d) = str_lower prov.
Proof. unfold in_provincia. apply String.eqb_eq. Qed.

(** On ASCII codes the comparison of the source is equality up to
    case. *)
Lemma in_provincia_ascii {py : Python} (prov : string) (d : Distributore) :
  lowers_ascii -> ascii_only prov = true -> ascii_only (provincia d) = true ->
  in_provincia prov d = eq_nocase (provincia d) prov.
Proof.
  intros Hlow Hp Hd. unfold in_provincia.
  rewrite (Hlow _ Hp), (Hlow _ Hd).
  apply eq_true_iff_eq. rewrite String.eqb_eq. apply lower_eq_nocase.
Qed.

Lemma in_provincia_nocase {py : Python} (p q : string) (d : Distributore) :
  lowers_alike -> eq_nocase p q = true -> in_provincia p d = in_provincia q d.
Proof.
  intros Hlow H. unfold in_provincia. now rewrite (Hlow p q H).
Qed.

(** ** Stations *)

Lemma negative_Fin (q : Q) : negative (Fin q) = true <-> q < 0.
Proof.
  simpl. destruct (Qlt_le_dec q 0) as [Hlt | Hge]; split; auto; try discriminate.
  intros Hlt. exfalso. apply (Qlt_irrefl 0). now apply Qle_lt_trans with q.
Qed.

Lemma set_prezzo_negativo (self : Distributore) (tipo : string) (p : pyfloat) :
  negative p = true ->
  set_prezzo tipo p self = (Raised (ValueError "Prezzo negativo"), self).
Proof.
  intros Hneg. unfold set_prezzo. rewrite bind_get. now rewrite Hneg.
Qed.

Lemma set_prezzo_non_negativo (self : Distributore) (tipo : string) (p : pyfloat) :
  negative p = false ->
  set_prezzo tipo p self =
  if decide (tipo = "benzina") then (Returned tt, with_prezzo_benzina p self)
  else if decide (tipo = "diesel") then (Returned tt, with_prezzo_diesel p self)
  else (Raised (ValueError "Tipo carburante sconosciuto"), self).
Proof.
  intros Hge. unfold set_prezzo. rewrite bind_get, Hge.
  repeat case_decide; reflexivity.
Qed.

(** C4: [set_prezzo] raises the InvalidArgument [ValueError] on a price
    below 0 and, the price not being below 0, the UnknownFuelKind one on
    a kind other than benzina and diesel; an unknown kind never returns;
    after either exception the station is as it was.  On a known kind
    and a price that is not below 0 it returns and only that price has
    changed.  A finite price is below 0 as the number it is; of the
    others only minus infinity is. *)
Theorem set_prezzo_spec (self : Distributore) (tipo : string)
    (nuovo_prezzo : pyfloat) :
  (negative nuovo_prezzo = true ->
     set_prezzo tipo nuovo_prezzo self = (Raised (ValueError "Prezzo negativo"), self)) /\
  (tipo <> "benzina" /\ tipo <> "diesel" ->
     (negative nuovo_prezzo = false ->
        set_prezzo tipo nuovo_prezzo self =
        (Raised (ValueError "Tipo carburante sconosciuto"), self)) /\
     exists e, set_prezzo tipo nuovo_prezzo self = (Raised e, self)) /\
  (negative nuovo_prezzo = false ->
     set_prezzo "benzina" nuovo_prezzo self =
     (Returned tt,
      {| id := id self; nome := nome self; provincia := provincia self;
         indirizzo := indirizzo self; lat := lat self; lon := lon self;
         serbatoio_benzina := serbatoio_benzina self;
         serbatoio_diesel := serbatoio_diesel self;
         prezzo_benzina := nuovo_prezzo;
         prezzo_diesel := prezzo_diesel self |}) /\
     set_prezzo "diesel" nuovo_prezzo self =
     (Returned tt,
      {| id := id self; nome := nome self; provincia := provincia self;
         indirizzo := indirizzo self; lat := lat self; lon := lon self;
         serbatoio_benzina := serbatoio_benzina self;
         serbatoio_diesel := serbatoio_diesel self;
         prezzo_benzina := prezzo_benzina self;
         prezzo_diesel := nuovo_prezzo |})) /\
  spec_error_of (ValueError "Prezzo negativo") = Some InvalidArgument /\
  spec_error_of (ValueError "Tipo carburante sconosciuto") = Some UnknownFuelKind /\
  (forall q : Q, negative (Fin q) = true <-> q < 0) /\
  negative NegInf = true /\ negative PosInf = false /\ negative NaN = false.
Proof.
  split; [apply set_prezzo_negativo |].
  split; [| split; [| split; [reflexivity | split; [reflexivity |]]]].
  - intros [Hb Hd]. split.
    + intros Hnn. rewrite set_prezzo_non_negativo by assumption.
      now repeat case_decide.
    + destruct (negative nuovo_prezzo) eqn:Hneg.
      * eexists. now apply set_prezzo_negativo.
      * eexists. rewrite set_prezzo_non_negativo by assumption.
        now repeat case_decide.
  - intros Hnn. split; now rewrite set_prezzo_non_negativo by assumption.
  - split; [apply negative_Fin | repeat split].
Qed.

(** The calls for the prices that are present return and leave the
    station with those prices. *)
Lemma set_prezzi_run (benzina diesel : option pyfloat) (d : Distributore) :
  non_negative benzina -> non_negative diesel ->
  set_prezzi benzina diesel d = (Returned tt, applica_prezzi benzina diesel d).
Proof.
  intros Hb Hd. unfold set_prezzi, applica_prezzi, bind.
  destruct benzina as [pb |], diesel as [pd |]; simpl in *;
    rewrite ?set_prezzo_non_negativo by assumption; simpl;
    rewrite ?set_prezzo_non_negativo by assumption; reflexivity.
Qed.

(** ** The loop *)

Lemma for_in_returns {A B} (body : Py A (option B)) (f : A -> option B)
    (g : A -> A) (xs : list A) :
  (forall x, body x = (Returned (f x), g x)) ->
  for_in body xs = (Returned (omap f xs), map g xs).
Proof.
  intros Hbody. induction xs as [| x xs IH]; [reflexivity |].
  csimpl. rewrite Hbody, IH. now destruct (f x).
Qed.

Lemma omap_selected {A B} (sel : A -> bool) (f : A -> B) (xs : list A) :
  omap (fun x => if sel x then Some (f x) else None) xs =
  map f (List.filter sel xs).
Proof.
  induction xs as [| x xs IH]; [reflexivity |].
  csimpl. rewrite IH. simpl. now destruct (sel x).
Qed.

Lemma filter_none {A} (sel : A -> bool) (xs : list A) :
  (forall x, In x xs -> sel x = false) -> List.filter sel xs = [].
Proof.
  induction xs as [| x xs IH]; simpl; intros H; [reflexivity |].
  rewrite (H x) by now left. apply IH. intros y Hy. apply H. now right.
Qed.

Lemma map_unselected {A} (sel : A -> bool) (g : A -> A) (xs : list A) :
  (forall x, In x xs -> sel x = false) ->
  map (fun x => if sel x then g x else x) xs = xs.
Proof.
  induction xs as [| x xs IH]; simpl; intros H; [reflexivity |].
  rewrite (H x) by now left. f_equal. apply IH. intros y Hy. apply H. now right.
Qed.

Lemma for_in_ext {A B} (body1 body2 : Py A (option B)) (xs : list A) :
  (forall x, body1 x = body2 x) -> for_in body1 xs = for_in body2 xs.
Proof.
  intros Hext. induction xs as [| x xs IH]; simpl; [reflexivity |].
  now rewrite Hext, IH.
Qed.

Lemma for_in_skip {A B} (body : Py A (option B)) (xs : list A) :
  (forall x, In x xs -> body x = (Returned None, x)) ->
  for_in body xs = (Returned [], xs).
Proof.
  induction xs as [| x xs IH]; intros Hskip; [reflexivity |].
  cbn [for_in]. rewrite (Hskip x) by now left.
  rewrite IH; [reflexivity |]. intros y Hy. apply Hskip. now right.
Qed.

Lemma for_in_raise {A B} (body : Py A (option B)) (before after : list A)
    (x x' : A) (e : exn) :
  (forall y, In y before -> body y = (Returned None, y)) ->
  body x = (Raised e, x') ->
  for_in body (before ++ x :: after) = (Raised e, before ++ x' :: after).
Proof.
  intros Hskip Hx. induction before as [| y before IH]; cbn [app for_in].
  - now rewrite Hx.
  - rewrite (Hskip y) by now left.
    rewrite IH; [reflexivity |]. intros z Hz. apply Hskip. now right.
Qed.

Lemma for_in_Forall2 {A B} (body : Py A (option B)) (R : A -> A -> Prop)
    (xs : list A) :
  (forall x, R x x) -> (forall x, R x (snd (body x))) ->
  Forall2 R xs (snd (for_in body xs)).
Proof.
  intros Hrefl Hbody. induction xs as [| x xs IH]; simpl; [constructor |].
  pose proof (Hbody x) as Hx.
  destruct (body x) as [[ob | e] x']; simpl in *.
  - destruct (for_in body xs) as [[bs | e] xs']; simpl in *; now constructor.
  - constructor; [assumption |]. clear IH. induction xs; now constructor.
Qed.

Lemma Forall2_map_eq {A B} (f : A -> B) (xs ys : list A) :
  Forall2 (fun x y => f x = f y) xs ys -> map f xs = map f ys.
Proof. induction 1; simpl; congruence. Qed.

Lemma Forall2_Forall_impl {A} (P : A -> Prop) (xs ys : list A) :
  Forall2 (fun x y => P x -> P y) xs ys -> Forall P xs -> Forall P ys.
Proof.
  induction 1 as [| x y xs ys Hxy _ IH]; intros HP; [constructor |].
  apply Forall_cons in HP as [Hx Hxs]. constructor; auto.
Qed.

(** ** The bulk price update *)

Lemma prezzi_map_benzina (benzina diesel : option pyfloat) :
  prezzi_map benzina diesel !! "benzina" = benzina.
Proof.
  unfold prezzi_map. destruct benzina, diesel;
    rewrite ?lookup_insert_ne by discriminate;
    rewrite ?lookup_insert_eq, ?lookup_empty; reflexivity.
Qed.

Lemma prezzi_map_diesel (benzina diesel : option pyfloat) :
  prezzi_map benzina diesel !! "diesel" = diesel.
Proof.
  unfold prezzi_map. destruct benzina, diesel;
    rewrite ?lookup_insert_eq; try reflexivity;
    rewrite ?lookup_insert_ne by discriminate; apply lookup_empty.
Qed.

Lemma prezzi_map_size (benzina diesel : option pyfloat) :
  is_Some benzina \/ is_Some diesel -> size (prezzi_map benzina diesel) <> 0%nat.
Proof.
  intros Hsome Hsize. apply map_size_empty_iff in Hsize.
  destruct Hsome as [[p ->] | [p ->]].
  - pose proof (prezzi_map_benzina (Some p) diesel) as H.
    rewrite Hsize, lookup_empty in H. discriminate H.
  - pose proof (prezzi_map_diesel benzina (Some p)) as H.
    rewrite Hsize, lookup_empty in H. discriminate H.
Qed.

Section BulkUpdateProps.

Context {py : Python}.

(** One pass of the loop body on a station, for prices that
    [set_prezzo] takes. *)
Lemma aggiorna_run (prov : string) (benzina diesel : option pyfloat)
    (d : Distributore) :
  non_negative benzina -> non_negative diesel ->
  aggiorna prov (prezzi_map benzina diesel) d =
  (Returned (if in_provincia prov d then Some (id d) else None),
   if in_provincia prov d then applica_prezzi benzina diesel d else d).
Proof.
  intros Hb Hd. unfold aggiorna. rewrite bind_get.
  destruct (in_provincia prov d); [| reflexivity].
  unfold bind, aggiorna_prezzo.
  rewrite prezzi_map_benzina, prezzi_map_diesel.
  unfold applica_prezzi.
  destruct benzina as [pb |], diesel as [pd |]; simpl in *;
    rewrite ?set_prezzo_non_negativo by assumption; simpl;
    rewrite ?set_prezzo_non_negativo by assumption; reflexivity.
Qed.

Lemma aggiorna_skip (prov : string) (np : gmap string pyfloat)
    (d : Distributore) :
  in_provincia prov d = false -> aggiorna prov np d = (Returned None, d).
Proof.
  intros Hd. unfold aggiorna. rewrite bind_get. now rewrite Hd.
Qed.

Lemma aggiorna_benzina_negativa (prov : string)
    (benzina diesel : option pyfloat) (d : Distributore) (p : pyfloat) :
  in_provincia prov d = true -> benzina = Some p -> negative p = true ->
  aggiorna prov (prezzi_map benzina diesel) d =
  (Raised (ValueError "Prezzo negativo"), d).
Proof.
  intros Hd -> Hneg. unfold aggiorna. rewrite bind_get, Hd.
  apply bind_raised. unfold aggiorna_prezzo. rewrite prezzi_map_benzina.
  now apply set_prezzo_negativo.
Qed.

Lemma aggiorna_diesel_negativo (prov : string)
    (benzina diesel : option pyfloat) (d : Distributore) (p : pyfloat) :
  in_provincia prov d = true ->
  non_negative benzina -> diesel = Some p -> negative p = true ->
  aggiorna prov (prezzi_map benzina diesel) d =
  (Raised (ValueError "Prezzo negativo"), applica_prezzi benzina None d).
Proof.
  intros Hd Hnb -> Hneg.
  unfold aggiorna. rewrite bind_get, Hd.
  assert (Hfirst : aggiorna_prezzo "benzina" (prezzi_map benzina (Some p)) d =
                   (Returned tt, applica_prezzi benzina None d)).
  { unfold aggiorna_prezzo. rewrite prezzi_map_benzina.
    destruct benzina as [pb |]; [| reflexivity].
    simpl in Hnb. now rewrite set_prezzo_non_negativo by assumption. }
  rewrite (bind_returned _ _ _ _ _ Hfirst).
  apply bind_raised. unfold aggiorna_prezzo. rewrite prezzi_map_diesel.
  now apply set_prezzo_negativo.
Qed.

(** [float] returns or raises. *)
Lemma converts_or_rejects (entry : option json) :
  (exists price, converts entry price) \/ rejects entry.
Proof.
  destruct entry as [v |].
  - destruct (py_float v) as [x | e] eqn:Hv.
    + left. now exists (Some x).
    + right. now exists v, e.
  - left. now exists None.
Qed.

(** One validation block on an object body. *)
Lemma leggi_prezzo_obj (key : string) (items : list (string * json))
    (nuovi_prezzi : gmap string pyfloat) :
  leggi_prezzo key (JObj items) nuovi_prezzi =
  match dict_get items key with
  | None => Returned (inr nuovi_prezzi)
  | Some v =>
      match py_float v with
      | Returned x => Returned (inr (<[key := x]> nuovi_prezzi))
      | Raised _ =>
          Returned (inl (error_response ("Prezzo " +:+ key +:+ " non valido")))
      end
  end.
Proof.
  unfold leggi_prezzo, py_in, py_getitem.
  destruct (dict_get items key) as [v |].
  - rewrite bool_decide_eq_true_2 by eauto. reflexivity.
  - rewrite bool_decide_eq_false_2; [reflexivity |]. now intros [? ?].
Qed.

Lemma truthy_obj (items : list (string * json)) (key : string) :
  is_Some (dict_get items key) -> truthy (JObj items) = true.
Proof. destruct items; [intros [? H]; discriminate H | reflexivity]. Qed.

(** Validation lets through exactly the prices that convert. *)
Lemma valida_converts (items : list (string * json))
    (benzina diesel : option pyfloat) :
  converts (dict_get items "benzina") benzina ->
  converts (dict_get items "diesel") diesel ->
  is_Some benzina \/ is_Some diesel ->
  valida_prezzi (JObj items) = Returned (inr (prezzi_map benzina diesel)).
Proof.
  intros Hb Hd Hsome. unfold valida_prezzi.
  assert (Htruthy : truthy (JObj items) = true).
  { destruct Hsome as [[p ->] | [p ->]].
    - apply (truthy_obj items "benzina").
      destruct (dict_get items "benzina"); [eauto | contradiction].
    - apply (truthy_obj items "diesel").
      destruct (dict_get items "diesel"); [eauto | contradiction]. }
  rewrite Htruthy. simpl negb. cbv iota.
  rewrite !leggi_prezzo_obj.
  pose proof (prezzi_map_size benzina diesel Hsome) as Hsize.
  unfold prezzi_map in *.
  destruct (dict_get items "benzina") as [vb |], benzina as [pb |];
    simpl in Hb; try contradiction; rewrite ?Hb;
    rewrite !leggi_prezzo_obj;
    destruct (dict_get items "diesel") as [vd |], diesel as [pd |];
    simpl in Hd; try contradiction; rewrite ?Hd;
    now case_decide.
Qed.

(** A value on which [float] raises ends validation with a 400. *)
Lemma valida_rejects (items : list (string * json)) :
  rejects (dict_get items "benzina") \/ rejects (dict_get items "diesel") ->
  exists msg, valida_prezzi (JObj items) = Returned (inl (error_response msg)).
Proof.
  intros Hrej. unfold valida_prezzi.
  destruct (truthy (JObj items)); simpl negb; cbv iota; [| eauto].
  rewrite leggi_prezzo_obj.
  destruct (dict_get items "benzina") as [vb |] eqn:Eb.
  - destruct (py_float vb) as [x | e] eqn:Hvb; [| eauto].
    destruct Hrej as [(v & e & Hv & He) | (v & e & Hv & He)].
    + injection Hv as <-. rewrite Hvb in He. discriminate He.
    + rewrite leggi_prezzo_obj, Hv, He. eauto.
  - destruct Hrej as [(v & e & Hv & He) | (v & e & Hv & He)];
      [discriminate Hv |].
    rewrite leggi_prezzo_obj, Hv, He. eauto.
Qed.

(** After validation the handler answers 200 or lets an exception
    out; it has no 400 left to give. *)
Lemma handler_after_validation (prov : string) (data : json)
    (nuovi_prezzi : gmap string pyfloat) (ds : list Distributore) :
  valida_prezzi data = Returned (inr nuovi_prezzi) ->
  http_status (fst (api_cambia_prezzi_provincia prov data ds)) <> 400%Z.
Proof.
  intros Hval. unfold api_cambia_prezzi_provincia. rewrite Hval.
  destruct (for_in _ ds) as [[ids | e] ds']; simpl; discriminate.
Qed.

Lemma handler_early_return (prov : string) (data : json) (r : response)
    (ds : list Distributore) :
  valida_prezzi data = Returned (inl r) ->
  api_cambia_prezzi_provincia prov data ds = (Returned r, ds).
Proof.
  intros Hval. unfold api_cambia_prezzi_provincia. now rewrite Hval.
Qed.

(** The whole handler on a body whose prices convert and are not below
    0. *)
Lemma bulk_update_run (prov : string) (items : list (string * json))
    (ds : list Distributore) (benzina diesel : option pyfloat) :
  converts (dict_get items "benzina") benzina ->
  converts (dict_get items "diesel") diesel ->
  non_negative benzina -> non_negative diesel ->
  is_Some benzina \/ is_Some diesel ->
  api_cambia_prezzi_provincia prov (JObj items) ds =
  (Returned (risposta_aggiornati (ids_provincia prov ds)),
   aggiorna_provincia prov benzina diesel ds).
Proof.
  intros Hb Hd Hnb Hnd Hsome. unfold api_cambia_prezzi_provincia.
  rewrite (valida_converts items benzina diesel Hb Hd Hsome).
  rewrite (for_in_returns _ _ _ ds
             (fun d => aggiorna_run prov benzina diesel d Hnb Hnd)).
  now rewrite omap_selected.
Qed.

(** The handler on a body with a price below 0, at the first station of
    the province. *)
Lemma bulk_update_raises_benzina (prov : string) (items : list (string * json))
    (before after : list Distributore) (d : Distributore)
    (benzina diesel : option pyfloat) (p : pyfloat) :
  converts (dict_get items "benzina") benzina ->
  converts (dict_get items "diesel") diesel ->
  (forall x, In x before -> in_provincia prov x = false) ->
  in_provincia prov d = true ->
  benzina = Some p -> negative p = true ->
  api_cambia_prezzi_provincia prov (JObj items) (before ++ d :: after) =
  (Raised (ValueError "Prezzo negativo"), before ++ d :: after).
Proof.
  intros Hb Hd Hbefore Hmatch Hp Hneg. unfold api_cambia_prezzi_provincia.
  rewrite (valida_converts items benzina diesel Hb Hd)
    by (left; rewrite Hp; eauto).
  rewrite (for_in_raise _ before after d d (ValueError "Prezzo negativo"));
    [reflexivity | |].
  - intros x Hx. apply aggiorna_skip. now apply Hbefore.
  - now apply (aggiorna_benzina_negativa prov benzina diesel d p).
Qed.

Lemma bulk_update_raises_diesel (prov : string) (items : list (string * json))
    (before after : list Distributore) (d : Distributore)
    (benzina diesel : option pyfloat) (p : pyfloat) :
  converts (dict_get items "benzina") benzina ->
  converts (dict_get items "diesel") diesel ->
  (forall x, In x before -> in_provincia prov x = false) ->
  in_provincia prov d = true ->
  non_negative benzina -> diesel = Some p -> negative p = true ->
  api_cambia_prezzi_provincia prov (JObj items) (before ++ d :: after) =
  (Raised (ValueError "Prezzo negativo"),
   before ++ applica_prezzi benzina None d :: after).
Proof.
  intros Hb Hd Hbefore Hmatch Hnb Hp Hneg. unfold api_cambia_prezzi_provincia.
  rewrite (valida_converts items benzina diesel Hb Hd)
    by (right; rewrite Hp; eauto).
  rewrite (for_in_raise _ before after d (applica_prezzi benzina None d)
             (ValueError "Prezzo negativo")); [reflexivity | |].
  - intros x Hx. apply aggiorna_skip. now apply Hbefore.
  - now apply (aggiorna_diesel_negativo prov benzina diesel d p).
Qed.

(** C5: on a body whose benzina and/or diesel values convert to prices
    that are not below 0, the handler answers 200 with, under
    aggiornati, the ids of the stations of the province in registry
    order; those stations are as [set_prezzo] leaves them for each price
    present and every other station is as it was; with no such station
    the list is empty and the registry untouched.  A station is of the
    province when its code and the requested one are equal after
    [lower()], which for ASCII codes is equality up to case. *)
Theorem bulk_update_spec (prov : string) (items : list (string * json))
    (ds : list Distributore) (benzina diesel : option pyfloat) :
  converts (dict_get items "benzina") benzina ->
  converts (dict_get items "diesel") diesel ->
  non_negative benzina -> non_negative diesel ->
  is_Some benzina \/ is_Some diesel ->
  api_cambia_prezzi_provincia prov (JObj items) ds =
    (Returned {| status := 200;
                 body := JObj [("aggiornati",
                                JArr (map JInt (map id
                                  (List.filter (in_provincia prov) ds))))] |},
     map (fun d => if in_provincia prov d
                   then applica_prezzi benzina diesel d else d) ds) /\
  (forall d, set_prezzi benzina diesel d =
             (Returned tt, applica_prezzi benzina diesel d)) /\
  ((forall d, In d ds -> in_provincia prov d = false) ->
   api_cambia_prezzi_provincia prov (JObj items) ds =
     (Returned {| status := 200; body := JObj [("aggiornati", JArr [])] |}, ds)) /\
  (forall d, in_provincia prov d = true <->
             str_lower (provincia d) = str_lower prov) /\
  (lowers_ascii -> ascii_only prov = true ->
   forall d, ascii_only (provincia d) = true ->
             in_provincia prov d = eq_nocase (provincia d) prov).
Proof.
  intros Hb Hd Hnb Hnd Hsome.
  pose proof (bulk_update_run prov items ds benzina diesel
                Hb Hd Hnb Hnd Hsome) as Hrun.
  split; [exact Hrun |]. split; [| split; [| split]].
  - intros d. now apply set_prezzi_run.
  - intros Hnone. rewrite Hrun.
    unfold risposta_aggiornati, ids_provincia, aggiorna_provincia.
    rewrite (filter_none _ ds Hnone).
    now rewrite (map_unselected _ (applica_prezzi benzina diesel) ds Hnone).
  - intros d. apply in_provincia_iff.
  - intros Hlow Hp d Hd'. now apply in_provincia_ascii.
Qed.

(** C6, on the code: a negative price passes validation and
    [set_prezzo] raises inside the loop.  With diesel -1.5 for MI the
    exception leaves the handler (a 500, no 400); with benzina 1.5 and
    diesel -1 station 1 has taken the benzina price by then and keeps
    it, and station 2 is never reached. *)
Theorem negative_price_escapes :
  (exists nuovi_prezzi,
      valida_prezzi (JObj [("diesel", JNum (-1.5))]) = Returned (inr nuovi_prezzi)) /\
  api_cambia_prezzi_provincia "MI" (JObj [("diesel", JNum (-1.5))]) _distributori =
    (Raised (ValueError "Prezzo negativo"), _distributori) /\
  http_status (fst (api_cambia_prezzi_provincia "MI"
                      (JObj [("diesel", JNum (-1.5))]) _distributori))
    = 500%Z /\
  (let r := api_cambia_prezzi_provincia "MI"
              (JObj [("benzina", JNum 1.5); ("diesel", JNum (-1))])
              _distributori in
   fst r = Raised (ValueError "Prezzo negativo") /\
   map (fun d => (id d, prezzo_benzina d, prezzo_diesel d)) (snd r) =
     [(1%Z, Fin 1.5, Fin 1.80); (2%Z, Fin 1.92, Fin 1.82);
      (3%Z, Fin 1.95, Fin 1.85)]).
Proof.
  assert (Hfirst : forall d, provincia d = "MI" -> in_provincia "MI" d = true).
  { intros d Hd. unfold in_provincia. rewrite Hd. apply String.eqb_refl. }
  assert (H1 : api_cambia_prezzi_provincia "MI"
                 (JObj [("diesel", JNum (-1.5))]) _distributori =
               (Raised (ValueError "Prezzo negativo"), _distributori)).
  { unfold _distributori.
    refine (bulk_update_raises_diesel "MI" [("diesel", JNum (-1.5))] [] _ _
              None (Some (Fin (-1.5))) (Fin (-1.5)) _ _ _ _ _ _ _);
      try reflexivity.
    - intros x [].
    - now apply Hfirst. }
  split; [| split; [exact H1 | split; [now rewrite H1 |]]].
  - exists (prezzi_map None (Some (Fin (-1.5)))).
    apply valida_converts; [reflexivity | reflexivity | right; eauto].
  - cbv zeta.
    assert (H2 : api_cambia_prezzi_provincia "MI"
                   (JObj [("benzina", JNum 1.5); ("diesel", JNum (-1))])
                   _distributori =
                 (Raised (ValueError "Prezzo negativo"),
                  match _distributori with
                  | d :: after => applica_prezzi (Some (Fin 1.5)) None d :: after
                  | [] => []
                  end)).
    { unfold _distributori.
      refine (bulk_update_raises_diesel "MI"
                [("benzina", JNum 1.5); ("diesel", JNum (-1))] [] _ _
                (Some (Fin 1.5)) (Some (Fin (-1))) (Fin (-1)) _ _ _ _ _ _ _);
        try reflexivity.
      - intros x [].
      - now apply Hfirst. }
    rewrite H2. split; reflexivity.
Qed.

(** C7, on the code: a body that is a number other than 0, or [true],
    is present and well formed and holds neither benzina nor diesel, yet
    the membership test on it raises [TypeError] outside any [try]: the
    exception leaves the handler, a 500 and no 400.  The registry is as
    it was. *)
Theorem scalar_body_escapes (prov : string) (ds : list Distributore) :
  api_cambia_prezzi_provincia prov (JInt 5) ds = (Raised TypeError, ds) /\
  api_cambia_prezzi_provincia prov (JNum 1.5) ds = (Raised TypeError, ds) /\
  api_cambia_prezzi_provincia prov (JBool true) ds = (Raised TypeError, ds) /\
  http_status (fst (api_cambia_prezzi_provincia prov (JInt 5) ds)) = 500%Z /\
  (forall n, n <> 0%Z ->
     api_cambia_prezzi_provincia prov (JInt n) ds = (Raised TypeError, ds)).
Proof.
  repeat split.
  intros n Hn. unfold api_cambia_prezzi_provincia, valida_prezzi.
  cbn [truthy]. destruct (Z.eqb_spec n 0) as [-> | _]; [contradiction |].
  reflexivity.
Qed.

(** C10: on an object body with a benzina or diesel value, the answer
    is a 400 exactly when [float] raises on a supplied value.  Values on
    which it returns pass validation as the numbers it returns and,
    where those are not below 0, become the prices of the province's
    stations: so a string that [float] reads, and a boolean as 1 or
    0. *)
Theorem float_validation_spec (prov : string) (items : list (string * json))
    (ds : list Distributore) :
  is_Some (dict_get items "benzina") \/ is_Some (dict_get items "diesel") ->
  (http_status (fst (api_cambia_prezzi_provincia prov (JObj items) ds)) = 400%Z <->
   rejects (dict_get items "benzina") \/ rejects (dict_get items "diesel")) /\
  (forall benzina diesel,
      converts (dict_get items "benzina") benzina ->
      converts (dict_get items "diesel") diesel ->
      valida_prezzi (JObj items) = Returned (inr (prezzi_map benzina diesel)) /\
      prezzi_map benzina diesel !! "benzina" = benzina /\
      prezzi_map benzina diesel !! "diesel" = diesel /\
      (non_negative benzina -> non_negative diesel ->
       api_cambia_prezzi_provincia prov (JObj items) ds =
         (Returned (risposta_aggiornati (ids_provincia prov ds)),
          aggiorna_provincia prov benzina diesel ds))) /\
  (forall s x, float_of_str s = Some x -> negative x = false ->
     api_cambia_prezzi_provincia prov (JObj [("benzina", JStr s)]) ds =
       (Returned (risposta_aggiornati (ids_provincia prov ds)),
        aggiorna_provincia prov (Some x) None ds)) /\
  (forall s, float_of_str s = None ->
     api_cambia_prezzi_provincia prov (JObj [("benzina", JStr s)]) ds =
       (Returned (error_response "Prezzo benzina non valido"), ds)) /\
  (forall b : bool,
     api_cambia_prezzi_provincia prov (JObj [("diesel", JBool b)]) ds =
       (Returned (risposta_aggiornati (ids_provincia prov ds)),
        aggiorna_provincia prov None (Some (Fin (if b then 1 else 0))) ds)).
Proof.
  intros Hsupplied.
  assert (Hsome : forall benzina diesel,
             converts (dict_get items "benzina") benzina ->
             converts (dict_get items "diesel") diesel ->
             is_Some benzina \/ is_Some diesel).
  { intros benzina diesel Hb Hd.
    destruct Hsupplied as [[v Hv] | [v Hv]]; rewrite Hv in *.
    - left. destruct benzina; [eauto | contradiction].
    - right. destruct diesel; [eauto | contradiction]. }
  split; [split |]; [| | split; [| split; [| split]]].
  - intros H400.
    destruct (converts_or_rejects (dict_get items "benzina"))
      as [[benzina Hb] | Hrej]; [| now left].
    destruct (converts_or_rejects (dict_get items "diesel"))
      as [[diesel Hd] | Hrej]; [| now right].
    exfalso. revert H400.
    apply (handler_after_validation prov (JObj items)
             (prezzi_map benzina diesel)).
    apply valida_converts; auto.
  - intros Hrej.
    destruct (valida_rejects items Hrej) as [msg Hmsg].
    now rewrite (handler_early_return prov _ _ ds Hmsg).
  - intros benzina diesel Hb Hd.
    split; [apply valida_converts; auto |].
    split; [apply prezzi_map_benzina |].
    split; [apply prezzi_map_diesel |].
    intros Hnb Hnd. apply bulk_update_run; auto.
  - intros s x Hs Hx.
    apply (bulk_update_run prov [("benzina", JStr s)] ds (Some x) None);
      simpl; rewrite ?Hs; auto; left; eauto.
  - intros s Hs. apply handler_early_return.
    unfold valida_prezzi. cbn [truthy negb]. cbv iota.
    rewrite leggi_prezzo_obj. simpl. now rewrite Hs.
  - intros b.
    apply (bulk_update_run prov [("diesel", JBool b)] ds None
             (Some (Fin (if b then 1 else 0))));
      simpl; auto; try (now destruct b); right; eauto.
Qed.

End BulkUpdateProps.

Ltac seed_price_hyp :=
  first [ reflexivity
        | left; eexists; reflexivity
        | right; eexists; reflexivity ].

Lemma bulk_update_spec_witness :
  api_cambia_prezzi_provincia (py := ascii_python) "mi"
    (JObj [("benzina", JNum 1.77); ("diesel", JNum 1.66)]) _distributori =
  (Returned {| status := 200;
               body := JObj [("aggiornati",
                              JArr (map JInt (map id
                                (List.filter (in_provincia (py := ascii_python) "mi")
                                   _distributori))))] |},
   map (fun d => if in_provincia (py := ascii_python) "mi" d
                 then applica_prezzi (Some (Fin 1.77)) (Some (Fin 1.66)) d
                 else d) _distributori).
Proof.
  refine (proj1 (bulk_update_spec (py := ascii_python) "mi"
                   [("benzina", JNum 1.77); ("diesel", JNum 1.66)]
                   _distributori (Some (Fin 1.77)) (Some (Fin 1.66)) _ _ _ _ _));
    seed_price_hyp.
Defined.

(** The update of the specification's example: MI in any case, both
    prices. *)
Example bulk_update_mi :
  let r := api_cambia_prezzi_provincia (py := ascii_python) "mi"
             (JObj [("benzina", JNum 1.77); ("diesel", JNum 1.66)])
             _distributori in
  fst r = Returned (risposta_aggiornati [1; 2]%Z) /\
  map (fun d => (id d, prezzo_benzina d, prezzo_diesel d)) (snd r) =
    [(1%Z, Fin 1.77, Fin 1.66); (2%Z, Fin 1.77, Fin 1.66);
     (3%Z, Fin 1.95, Fin 1.85)].
Proof. vm_compute. split; reflexivity. Qed.

Lemma float_validation_spec_witness :
  let items := [("benzina", JStr "1.5"); ("diesel", JBool true)] in
  (http_status (fst (api_cambia_prezzi_provincia (py := ascii_python) "MI"
                       (JObj items) _distributori)) = 400%Z <->
   rejects (py := ascii_python) (dict_get items "benzina") \/
   rejects (py := ascii_python) (dict_get items "diesel")) /\
  valida_prezzi (py := ascii_python) (JObj items) =
    Returned (inr (prezzi_map (Some (Fin 1.5)) (Some (Fin 1)))).
Proof.
  intros items.
  assert (Hsupplied : is_Some (dict_get items "benzina") \/
                      is_Some (dict_get items "diesel"))
    by (left; now exists (JStr "1.5")).
  destruct (float_validation_spec (py := ascii_python) "MI" items _distributori
              Hsupplied) as (Hiff & Hconv & _).
  split; [exact Hiff |].
  apply (Hconv (Some (Fin 1.5)) (Some (Fin 1))); reflexivity.
Defined.

(** A numeric string and a boolean as prices, the spelling nan as a
    price, and an int beyond the doubles, end to end. *)
Example bulk_update_coerced :
  (let r := api_cambia_prezzi_provincia (py := ascii_python) "to"
              (JObj [("benzina", JStr "1.5"); ("diesel", JBool true)])
              _distributori in
   fst r = Returned (risposta_aggiornati [3]%Z) /\
   map (fun d => (id d, prezzo_benzina d, prezzo_diesel d)) (snd r) =
     [(1%Z, Fin 1.90, Fin 1.80); (2%Z, Fin 1.92, Fin 1.82);
      (3%Z, Fin 1.5, Fin 1)]) /\
  (let r := api_cambia_prezzi_provincia (py := ascii_python) "to"
              (JObj [("benzina", JStr "nan")]) _distributori in
   fst r = Returned (risposta_aggiornati [3]%Z) /\
   map prezzo_benzina (snd r) = [Fin 1.90; Fin 1.92; NaN]) /\
  api_cambia_prezzi_provincia (py := ascii_python) "to"
    (JObj [("benzina", JInt (10 ^ 400))]) _distributori =
  (Returned (error_response "Prezzo benzina non valido"), _distributori).
Proof. vm_compute. repeat split. Qed.

(** ** The province-levels handlers *)

(** C8 as stated fails on api_server.py: for MI on the seed list its
    handler serialises station 1 with [to_dict], whose keys are not the
    level-view fields; provincia is among them. *)
Lemma api_server_livelli_extra_fields :
  exists item rest,
    ApiServer.api_livelli_provincia (py := ascii_python) "MI" _distributori =
      (Returned (jsonify (JArr (item :: rest))), _distributori) /\
    keys_of item <> level_view_fields /\
    In "provincia" (keys_of item) /\
    ~ In "provincia" level_view_fields.
Proof.
  eexists _, _. split; [reflexivity |].
  split; [discriminate |]. split.
  - simpl. tauto.
  - simpl. intros H. repeat destruct H as [H | H]; try discriminate H; exact H.
Qed.

(** C8, amended: both handlers answer 200 with the stations of the
    province, in registry order, possibly none, and leave the registry
    as it was.  app.py serialises each with exactly the level-view
    fields; api_server.py serialises each with [to_dict], which has the
    level-view fields with the same values and six fields more.  A
    station is of the province when its code and the requested one are
    equal after [lower()], which for ASCII codes is equality up to
    case. *)
Theorem api_livelli_provincia_spec {py : Python} (prov : string)
    (ds : list Distributore) :
  let selezionati := List.filter (in_provincia prov) ds in
  App.api_livelli_provincia prov ds =
    (Returned {| status := 200; body := JArr (map livelli_dict selezionati) |}, ds) /\
  ApiServer.api_livelli_provincia prov ds =
    (Returned {| status := 200; body := JArr (map ApiServer.to_dict selezionati) |}, ds) /\
  (forall d, keys_of (livelli_dict d) = level_view_fields) /\
  (forall d, keys_of (ApiServer.to_dict d) =
             [ "id"; "nome"; "provincia"; "indirizzo"; "lat"; "lon";
               "prezzo_benzina"; "prezzo_diesel";
               "livello_benzina"; "capacita_benzina"; "percent_benzina";
               "livello_diesel"; "capacita_diesel"; "percent_diesel" ]) /\
  (forall d key, In key level_view_fields ->
     obj_get (ApiServer.to_dict d) key = obj_get (livelli_dict d) key /\
     is_Some (obj_get (livelli_dict d) key)) /\
  (forall d, in_provincia prov d = true <->
             str_lower (provincia d) = str_lower prov) /\
  (lowers_ascii -> ascii_only prov = true ->
   forall d, ascii_only (provincia d) = true ->
             in_provincia prov d = eq_nocase (provincia d) prov).
Proof.
  intros selezionati. subst selezionati.
  split; [| split; [reflexivity | split; [reflexivity | split; [reflexivity |]]]].
  - unfold App.api_livelli_provincia. rewrite bind_get.
    now destruct (List.filter (in_provincia prov) ds).
  - split; [| split].
    + intros d key Hkey. simpl in Hkey.
      repeat destruct Hkey as [<- | Hkey]; try contradiction;
        (split; [reflexivity | eexists; reflexivity]).
    + intros d. apply in_provincia_iff.
    + intros Hlow Hp d Hd. now apply in_provincia_ascii.
Qed.

(** * Further properties of the code *)

(** ** Tanks *)

(** X1: on a tank within its capacity the fill percentage lies between 0
    and 100, the empty-capacity tank included. *)
Theorem percentuale_bounds (s : Serbatoio) :
  tank_ok s -> 0 <= percentuale s /\ percentuale s <= 100.
Proof.
  intros [Hlo Hhi]. unfold percentuale.
  destruct (Qeq_bool (capacita s) 0) eqn:Hc.
  - split; apply Qle_bool_imp_le; reflexivity.
  - apply Qeq_bool_neq in Hc.
    assert (Hpos : 0 < capacita s).
    { apply Qle_lt_or_eq in Hlo as [Hlt | Heq].
      - now apply Qlt_le_trans with (livello s).
      - apply Qle_lt_or_eq in Hhi as [Hlt | Heq'].
        + now rewrite Heq.
        + exfalso. apply Hc. now rewrite <- Heq', <- Heq. }
    assert (H0 : 0 <= livello s / capacita s).
    { apply Qle_shift_div_l; [assumption |]. now rewrite Qmult_0_l. }
    assert (H1 : livello s / capacita s <= 1).
    { apply Qle_shift_div_r; [assumption |]. now rewrite Qmult_1_l. }
    split; lra.
Qed.

Lemma percentuale_bounds_witness :
  let s := {| capacita := 12000; livello := 9000 |} in
  0 <= percentuale s /\ percentuale s <= 100.
Proof.
  intros s. apply (percentuale_bounds s).
  split; apply Qle_bool_imp_le; reflexivity.
Defined.

Lemma SFcompare_refl (x : spec_float) :
  x <> S754_nan -> SFcompare x x = Some Eq.
Proof.
  destruct x as [s | s | | s m e]; intros H; try congruence.
  - now destruct s.
  - now destruct s.
  - simpl. destruct s; rewrite Z.compare_refl, Pos.compare_cont_refl; reflexivity.
Qed.

Lemma SFltb_SFleb (x y : spec_float) : SFltb x y = true -> SFleb x y = true.
Proof. unfold SFltb, SFleb. now destruct (SFcompare x y) as [[] |]. Qed.

(** X25: on doubles, on a tank whose capacity is a number, [aggiungi]
    never leaves the level above the capacity, whatever the amount: a
    call that returns leaves a level that is at most the capacity, and
    the amount NaN, which no guard stops, fills the tank. *)
Theorem ieee_aggiungi_within_capacity (s : Ieee.Serbatoio) (q : Ieee.double) :
  Ieee.capacita s <> S754_nan ->
  (SFltb q (Ieee.of_Z 0) = true ->
     Ieee.aggiungi q s = (Raised (ValueError "quantita negativa"), s)) /\
  (SFltb q (Ieee.of_Z 0) = false ->
     exists l,
       Ieee.aggiungi q s =
         (Returned tt, {| Ieee.capacita := Ieee.capacita s; Ieee.livello := l |}) /\
       SFleb l (Ieee.capacita s) = true) /\
  Ieee.aggiungi S754_nan s =
    (Returned tt,
     {| Ieee.capacita := Ieee.capacita s; Ieee.livello := Ieee.capacita s |}).
Proof.
  intros Hcap. split; [| split].
  - intros Hneg. unfold Ieee.aggiungi. rewrite bind_get. now rewrite Hneg.
  - intros Hnn. unfold Ieee.aggiungi. rewrite bind_get, Hnn.
    unfold Ieee.set_livello, Ieee.py_min.
    destruct (SFltb (Ieee.add (Ieee.livello s) q) (Ieee.capacita s)) eqn:Hlt.
    + eexists. split; [reflexivity |]. now apply SFltb_SFleb.
    + eexists. split; [reflexivity |].
      unfold SFleb. now rewrite SFcompare_refl.
  - unfold Ieee.aggiungi. rewrite bind_get. cbn [SFltb SFcompare].
    unfold Ieee.set_livello, Ieee.py_min, Ieee.add, SFadd.
    now destruct (Ieee.livello s) as [[] | [] | | [] ? ?].
Qed.

Lemma ieee_aggiungi_within_capacity_witness :
  let s := {| Ieee.capacita := Ieee.of_Z 10000; Ieee.livello := Ieee.of_Z 7000 |} in
  exists l,
    Ieee.aggiungi (Ieee.of_Z 5000) s =
      (Returned tt, {| Ieee.capacita := Ieee.capacita s; Ieee.livello := l |}) /\
    SFleb l (Ieee.capacita s) = true.
Proof.
  intros s.
  refine (proj1 (proj2 (ieee_aggiungi_within_capacity s (Ieee.of_Z 5000) _)) _).
  - discriminate.
  - reflexivity.
Defined.

(** ** Province codes up to case *)

(** X7: two province codes that differ only in the case of their letters
    are one code to the service: both levels handlers and the price
    update answer alike and leave the same registry; a code and its
    lower-case form are such a pair. *)
Theorem province_code_up_to_case {py : Python}
    (p q : string) (data : json) (ds : list Distributore) :
  lowers_alike ->
  eq_nocase p q = true ->
  App.api_livelli_provincia p ds = App.api_livelli_provincia q ds /\
  ApiServer.api_livelli_provincia p ds = ApiServer.api_livelli_provincia q ds /\
  api_cambia_prezzi_provincia p data ds =
    api_cambia_prezzi_provincia q data ds /\
  eq_nocase (lower p) p = true.
Proof.
  intros Hlow Hpq.
  assert (Hfilter : List.filter (in_provincia p) ds = List.filter (in_provincia q) ds).
  { apply List.filter_ext. intros d. now apply in_provincia_nocase. }
  split; [| split; [| split]].
  - unfold App.api_livelli_provincia. rewrite !bind_get. now rewrite Hfilter.
  - unfold ApiServer.api_livelli_provincia. rewrite !bind_get. now rewrite Hfilter.
  - unfold api_cambia_prezzi_provincia.
    destruct (valida_prezzi data) as [[r | np] | e]; try reflexivity.
    rewrite (for_in_ext (aggiorna p np) (aggiorna q np)); [reflexivity |].
    intros d. unfold aggiorna. rewrite !bind_get.
    now rewrite (in_provincia_nocase p q d Hlow Hpq).
  - apply lower_eq_nocase. apply lower_idempotent.
Qed.

Lemma province_code_up_to_case_witness :
  App.api_livelli_provincia (py := ascii_python) "Mi" _distributori =
  App.api_livelli_provincia (py := ascii_python) "mI" _distributori.
Proof.
  apply (province_code_up_to_case (py := ascii_python)
           "Mi" "mI" JNull _distributori).
  - exact ascii_python_lowers_alike.
  - reflexivity.
Defined.

(** ** Lookup by id *)

Lemma find_by_id_none (did : Z) (ds : list Distributore) :
  find_by_id did ds = None <-> (forall d, In d ds -> id d <> did).
Proof.
  induction ds as [| x ds IH]; simpl.
  - split; [intros _ d [] | reflexivity].
  - destruct (Z.eqb_spec (id x) did) as [Heq | Hne].
    + split; [discriminate |]. intros H. exfalso. apply (H x); [now left | assumption].
    + rewrite IH. split.
      * intros H d [<- | Hd]; [assumption | now apply H].
      * intros H d Hd. apply H. now right.
Qed.

Lemma find_by_id_some (did : Z) (ds : list Distributore) (d : Distributore) :
  find_by_id did ds = Some d ->
  exists before after,
    ds = before ++ d :: after /\ id d = did /\
    (forall x, In x before -> id x <> did).
Proof.
  induction ds as [| x ds IH]; simpl; [discriminate |].
  destruct (Z.eqb_spec (id x) did) as [Heq | Hne].
  - intros [= <-]. exists [], ds. repeat split; [assumption |]. intros y [].
  - intros Hfind. destruct (IH Hfind) as (before & after & -> & Hid & Hbefore).
    exists (x :: before), after. repeat split; [assumption |].
    intros y [<- | Hy]; [assumption | now apply Hbefore].
Qed.

(** X8: [find_by_id] answers [None] exactly when no station has the id,
    and otherwise the first station of the registry that has it. *)
Theorem find_by_id_spec (did : Z) (ds : list Distributore) :
  (find_by_id did ds = None <-> (forall d, In d ds -> id d <> did)) /\
  (forall d, find_by_id did ds = Some d ->
     exists before after,
       ds = before ++ d :: after /\ id d = did /\
       (forall x, In x before -> id x <> did)).
Proof.
  split; [apply find_by_id_none |]. intros d. apply find_by_id_some.
Qed.

(** X9: in a registry with unique ids every station is found by its own
    id. *)
Theorem find_by_id_round_trip (ds : list Distributore) (d : Distributore) :
  NoDup (map id ds) -> In d ds -> find_by_id (id d) ds = Some d.
Proof.
  induction ds as [| x ds IH]; simpl; intros Hnd Hin; [contradiction |].
  apply NoDup_cons in Hnd as [Hx Hrest].
  destruct Hin as [<- | Hin].
  - now rewrite Z.eqb_refl.
  - destruct (Z.eqb_spec (id x) (id d)) as [Heq | Hne].
    + exfalso. apply Hx. rewrite Heq. apply list_elem_of_In. now apply in_map.
    + now apply IH.
Qed.

Lemma seed_ids : map id _distributori = [1; 2; 3]%Z.
Proof. reflexivity. Qed.

Lemma seed_ids_unique : NoDup (map id _distributori).
Proof.
  rewrite seed_ids. apply (bool_decide_unpack _). reflexivity.
Qed.

Lemma find_by_id_round_trip_witness :
  match _distributori with
  | _ :: d :: _ => find_by_id (id d) _distributori = Some d
  | _ => True
  end.
Proof.
  exact (find_by_id_round_trip _distributori _ seed_ids_unique
           (or_intror (or_introl eq_refl))).
Defined.

(** X10: the single-station levels handler aborts with 404 exactly when
    no station has the id; otherwise it answers 200 with the first such
    station, as the level dict in app.py and as [to_dict] in
    api_server.py; the registry is as it was either way. *)
Theorem api_livelli_distributore_spec (did : Z) (ds : list Distributore) :
  snd (App.api_livelli_distributore did ds) = ds /\
  snd (ApiServer.api_livelli_distributore did ds) = ds /\
  ((forall d, In d ds -> id d <> did) <->
   fst (App.api_livelli_distributore did ds) =
     Returned (Aborted 404 "Distributore non trovato")) /\
  ((forall d, In d ds -> id d <> did) <->
   fst (ApiServer.api_livelli_distributore did ds) =
     Returned (Aborted 404 "Distributore non trovato")) /\
  (forall d, find_by_id did ds = Some d ->
     In d ds /\ id d = did /\
     fst (App.api_livelli_distributore did ds) =
       Returned (Responded {| status := 200; body := livelli_dict d |}) /\
     fst (ApiServer.api_livelli_distributore did ds) =
       Returned (Responded {| status := 200; body := ApiServer.to_dict d |})).
Proof.
  unfold App.api_livelli_distributore, ApiServer.api_livelli_distributore.
  rewrite !bind_get. rewrite <- find_by_id_none.
  destruct (find_by_id did ds) as [d |] eqn:Hfind.
  - repeat split; try discriminate.
    + destruct (find_by_id_some did ds d Hfind) as (b & a & -> & _ & _).
      injection H as <-. apply in_elt.
    + injection H as <-.
      now destruct (find_by_id_some did ds d Hfind) as (_ & _ & _ & Hid & _).
    + now injection H as <-.
    + now injection H as <-.
  - repeat split; discriminate.
Qed.

(** ** The full list, ordered by id *)

Section SortedBy.

Context {A : Type} (key : A -> Z).

Local Abbreviation le_key := (key_le key).

Lemma insert_by_perm (x : A) (ys : list A) :
  Permutation (insert_by key x ys) (x :: ys).
Proof.
  induction ys as [| y ys IH]; simpl; [reflexivity |].
  destruct (key x <=? key y)%Z; [reflexivity |].
  rewrite IH. apply perm_swap.
Qed.

Lemma sorted_by_perm (xs : list A) : Permutation (sorted_by key xs) xs.
Proof.
  induction xs as [| x xs IH]; simpl; [reflexivity |].
  rewrite insert_by_perm. now apply perm_skip.
Qed.

Lemma insert_by_hd (a x : A) (ys : list A) :
  le_key a x -> HdRel le_key a ys -> HdRel le_key a (insert_by key x ys).
Proof.
  intros Hax Hays. destruct ys as [| y ys]; simpl.
  - now constructor.
  - destruct (key x <=? key y)%Z; constructor; [assumption |].
    now inversion Hays.
Qed.

Lemma insert_by_sorted (x : A) (ys : list A) :
  Sorted le_key ys -> Sorted le_key (insert_by key x ys).
Proof.
  induction ys as [| y ys IH]; simpl; intros Hs.
  - repeat constructor.
  - destruct (Z.leb_spec (key x) (key y)) as [Hle | Hgt].
    + constructor; [assumption |]. now constructor.
    + inversion Hs as [| ? ? Hs' Hhd]; subst.
      constructor; [now apply IH |].
      apply insert_by_hd; [| assumption]. unfold key_le. lia.
Qed.

Lemma sorted_by_sorted (xs : list A) : Sorted le_key (sorted_by key xs).
Proof.
  induction xs as [| x xs IH]; simpl; [constructor |].
  now apply insert_by_sorted.
Qed.

Lemma insert_by_stable (k : Z) (x : A) (ys : list A) :
  List.filter (fun a => (key a =? k)%Z) (insert_by key x ys) =
  List.filter (fun a => (key a =? k)%Z) (x :: ys).
Proof.
  induction ys as [| y ys IH]; [reflexivity |].
  cbn [insert_by].
  destruct (Z.leb_spec (key x) (key y)) as [Hle | Hgt]; [reflexivity |].
  cbn [List.filter] in *. rewrite IH.
  destruct (Z.eqb_spec (key x) k), (Z.eqb_spec (key y) k);
    try reflexivity. lia.
Qed.

Lemma sorted_by_stable (k : Z) (xs : list A) :
  List.filter (fun a => (key a =? k)%Z) (sorted_by key xs) =
  List.filter (fun a => (key a =? k)%Z) xs.
Proof.
  induction xs as [| x xs IH]; [reflexivity |].
  cbn [sorted_by]. rewrite insert_by_stable. cbn [List.filter].
  now rewrite IH.
Qed.

Lemma sorted_by_fixed (xs : list A) :
  Sorted le_key xs -> sorted_by key xs = xs.
Proof.
  induction xs as [| x xs IH]; [reflexivity |].
  intros Hs. inversion Hs as [| ? ? Hs' Hhd]; subst.
  cbn [sorted_by]. rewrite (IH Hs').
  destruct Hhd as [| y ys Hxy]; [reflexivity |].
  cbn [insert_by]. unfold key_le in Hxy.
  now destruct (Z.leb_spec (key x) (key y)); [| lia].
Qed.

End SortedBy.

(** X11: the list handler answers 200 with every station of the registry
    exactly once, ascending by id, stations of one id in registry order,
    each through the file's [to_dict]; the registry is as it was. *)
Theorem api_elenco_distributori_spec (ds : list Distributore) :
  exists ordinati,
    App.api_elenco_distributori ds =
      (Returned {| status := 200; body := JArr (map App.to_dict ordinati) |}, ds) /\
    ApiServer.api_elenco_distributori ds =
      (Returned {| status := 200; body := JArr (map ApiServer.to_dict ordinati) |}, ds) /\
    Permutation ordinati ds /\
    Sorted (fun a b => (id a <= id b)%Z) ordinati /\
    (forall k, List.filter (fun d => (id d =? k)%Z) ordinati =
               List.filter (fun d => (id d =? k)%Z) ds).
Proof.
  exists (sorted_by id ds).
  split; [reflexivity |]. split; [reflexivity |].
  split; [apply sorted_by_perm |].
  split; [apply (sorted_by_sorted id) |].
  intros k. apply sorted_by_stable.
Qed.

(** X12: on a registry whose ids already ascend, as the seed list's do,
    the list handler serialises the stations in registry order. *)
Theorem api_elenco_distributori_in_order (ds : list Distributore) :
  Sorted (fun a b => (id a <= id b)%Z) ds ->
  App.api_elenco_distributori ds =
    (Returned {| status := 200; body := JArr (map App.to_dict ds) |}, ds) /\
  ApiServer.api_elenco_distributori ds =
    (Returned {| status := 200; body := JArr (map ApiServer.to_dict ds) |}, ds).
Proof.
  intros Hs.
  unfold App.api_elenco_distributori, ApiServer.api_elenco_distributori.
  rewrite !bind_get. now rewrite (sorted_by_fixed id ds Hs).
Qed.

Lemma api_elenco_distributori_in_order_witness :
  App.api_elenco_distributori _distributori =
    (Returned {| status := 200; body := JArr (map App.to_dict _distributori) |},
     _distributori) /\
  ApiServer.api_elenco_distributori _distributori =
    (Returned {| status := 200; body := JArr (map ApiServer.to_dict _distributori) |},
     _distributori).
Proof.
  apply (api_elenco_distributori_in_order _distributori).
  repeat constructor; unfold Z.le; simpl; discriminate.
Defined.

(** ** What a price update leaves alone *)

Lemma set_prezzo_frame (tipo : string) (p : pyfloat) (d : Distributore) :
  senza_prezzi (snd (set_prezzo tipo p d)) = senza_prezzi d.
Proof.
  destruct (negative p) eqn:Hneg.
  - now rewrite set_prezzo_negativo.
  - rewrite set_prezzo_non_negativo by assumption.
    now repeat case_decide.
Qed.

Lemma set_prezzo_prezzi_ok (tipo : string) (p : pyfloat) (d : Distributore) :
  prezzi_ok d -> prezzi_ok (snd (set_prezzo tipo p d)).
Proof.
  intros [Hb Hd].
  destruct (negative p) eqn:Hneg.
  - rewrite set_prezzo_negativo by assumption. now split.
  - rewrite set_prezzo_non_negativo by assumption.
    repeat case_decide; now split.
Qed.

Section Frame.

Context {py : Python}.

(** What holds of a station before the loop body and is kept by
    [set_prezzo] holds after the body, however it ends. *)
Lemma aggiorna_keeps (P : Distributore -> Prop) (prov : string)
    (np : gmap string pyfloat) (d : Distributore) :
  (forall tipo p x, P x -> P (snd (set_prezzo tipo p x))) ->
  P d -> P (snd (aggiorna prov np d)).
Proof.
  intros Hset Hd. unfold aggiorna. rewrite bind_get.
  destruct (in_provincia prov d); [| exact Hd].
  unfold bind, aggiorna_prezzo.
  destruct (np !! "benzina") as [pb |].
  - pose proof (Hset "benzina" pb d Hd) as H1.
    destruct (set_prezzo "benzina" pb d) as [[[] | e] d1]; simpl in *; [| exact H1].
    destruct (np !! "diesel") as [pd |]; [| exact H1].
    pose proof (Hset "diesel" pd d1 H1) as H2.
    now destruct (set_prezzo "diesel" pd d1) as [[[] | e] d2].
  - simpl. destruct (np !! "diesel") as [pd |]; [| exact Hd].
    pose proof (Hset "diesel" pd d Hd) as H2.
    now destruct (set_prezzo "diesel" pd d) as [[[] | e] d2].
Qed.

(** The registry the handler leaves is the one it got or the one the
    loop leaves. *)
Lemma handler_registry (prov : string) (data : json) (ds : list Distributore) :
  snd (api_cambia_prezzi_provincia prov data ds) = ds \/
  exists np, snd (api_cambia_prezzi_provincia prov data ds) =
             snd (for_in (aggiorna prov np) ds).
Proof.
  unfold api_cambia_prezzi_provincia.
  destruct (valida_prezzi data) as [[r | np] | e];
    [now left | | now left].
  right. exists np. now destruct (for_in (aggiorna prov np) ds) as [[? | ?] ?].
Qed.

Lemma handler_Forall2 (prov : string) (data : json) (ds : list Distributore)
    (R : Distributore -> Distributore -> Prop) :
  (forall x, R x x) ->
  (forall tipo p x y, R x y -> R x (snd (set_prezzo tipo p y))) ->
  Forall2 R ds (snd (api_cambia_prezzi_provincia prov data ds)).
Proof.
  intros Hrefl Hset.
  destruct (handler_registry prov data ds) as [-> | [np ->]].
  - induction ds; now constructor.
  - apply for_in_Forall2; [assumption |].
    intros x. apply (aggiorna_keeps (R x)); [| apply Hrefl].
    intros tipo p y. apply Hset.
Qed.

Lemma bulk_update_keeps_frame (prov : string) (data : json)
    (ds : list Distributore) :
  Forall2 (fun d d' => senza_prezzi d = senza_prezzi d') ds
    (snd (api_cambia_prezzi_provincia prov data ds)).
Proof.
  apply handler_Forall2; [reflexivity |].
  intros tipo p x y Hxy. now rewrite set_prezzo_frame.
Qed.

(** X13: whatever the body and however the handler ends, a price update
    leaves the registry with the same stations in the same places, each
    with its id, name, province, address, coordinates and both tanks
    untouched: only prices can differ. *)
Theorem bulk_update_frame (prov : string) (data : json) (ds : list Distributore) :
  map senza_prezzi (snd (api_cambia_prezzi_provincia prov data ds)) =
  map senza_prezzi ds.
Proof.
  symmetry.
  apply (Forall2_map_eq senza_prezzi ds).
  apply bulk_update_keeps_frame.
Qed.

Lemma levels_of_frame (ds ds' : list Distributore) :
  map senza_prezzi ds' = map senza_prezzi ds ->
  (forall q, map livelli_dict (List.filter (in_provincia q) ds') =
             map livelli_dict (List.filter (in_provincia q) ds)) /\
  (forall did, option_map livelli_dict (find_by_id did ds') =
               option_map livelli_dict (find_by_id did ds)).
Proof.
  revert ds. induction ds' as [| x' ds' IH]; intros [| x ds] Hmap;
    try discriminate Hmap; [now split |].
  simpl in Hmap.
  injection Hmap as Hid Hnome Hprov Hind Hlat Hlon Hsb Hsd Hrest.
  destruct (IH ds Hrest) as [IHf IHl].
  assert (Hdict : livelli_dict x' = livelli_dict x).
  { unfold livelli_dict. now rewrite Hid, Hnome, Hsb, Hsd. }
  split.
  - intros q. cbn [List.filter].
    assert (Hin : in_provincia q x' = in_provincia q x)
      by (unfold in_provincia; now rewrite Hprov).
    rewrite Hin. destruct (in_provincia q x); cbn [map];
      rewrite ?Hdict; now rewrite IHf.
  - intros did. cbn [find_by_id]. rewrite Hid.
    destruct (id x =? did)%Z; cbn [option_map];
      [now rewrite Hdict | apply IHl].
Qed.

(** X14: no price update, accepted, rejected or broken off by an
    exception, changes what app.py's two levels handlers answer. *)
Theorem levels_survive_update (prov : string) (data : json)
    (ds : list Distributore) :
  let ds' := snd (api_cambia_prezzi_provincia prov data ds) in
  (forall q, fst (App.api_livelli_provincia q ds') =
             fst (App.api_livelli_provincia q ds)) /\
  (forall did, fst (App.api_livelli_distributore did ds') =
               fst (App.api_livelli_distributore did ds)).
Proof.
  intros ds'.
  assert (Hframe : map senza_prezzi ds' = map senza_prezzi ds).
  { symmetry. apply (Forall2_map_eq senza_prezzi ds).
    apply bulk_update_keeps_frame. }
  destruct (levels_of_frame ds ds' Hframe) as [Hf Hl].
  split.
  - intros q. unfold App.api_livelli_provincia. rewrite !bind_get.
    specialize (Hf q).
    destruct (List.filter (in_provincia q) ds') as [| a l],
             (List.filter (in_provincia q) ds) as [| b m];
      try discriminate Hf; [reflexivity |].
    unfold ret. cbn [fst]. now rewrite Hf.
  - intros did. unfold App.api_livelli_distributore. rewrite !bind_get.
    specialize (Hl did).
    destruct (find_by_id did ds') as [d1 |], (find_by_id did ds) as [d2 |];
      cbn [option_map] in Hl; try discriminate Hl; [| reflexivity].
    unfold ret. cbn [fst].
    assert (Hd : livelli_dict d1 = livelli_dict d2) by congruence.
    now rewrite Hd.
Qed.

(** ** The service over a run of requests *)

Lemma responding_snd {S} (m : Py S response) (s : S) :
  snd (responding m s) = snd (m s).
Proof. unfold responding, bind. now destruct (m s) as [[r | e] s']. Qed.

Lemma app_serve_registry (req : request) (ds : list Distributore) :
  snd (app_serve req ds) =
  match req with
  | PutPrezzi prov data => snd (api_cambia_prezzi_provincia prov data ds)
  | _ => ds
  end.
Proof.
  destruct req as [| prov | did | | prov data]; simpl;
    rewrite ?responding_snd; try reflexivity.
  - unfold App.api_livelli_provincia. rewrite bind_get.
    now destruct (List.filter (in_provincia prov) ds).
  - unfold App.api_livelli_distributore. rewrite bind_get.
    now destruct (find_by_id did ds).
Qed.

Lemma api_server_serve_registry (req : request) (ds : list Distributore) :
  snd (api_server_serve req ds) =
  match req with
  | PutPrezzi prov data => snd (api_cambia_prezzi_provincia prov data ds)
  | _ => ds
  end.
Proof.
  destruct req as [| prov | did | | prov data]; simpl;
    rewrite ?responding_snd; try reflexivity.
  unfold ApiServer.api_livelli_distributore. rewrite bind_get.
  now destruct (find_by_id did ds).
Qed.

(** X15: the two servers keep the same registry under the same requests,
    and it is the registry the price updates among them leave: no GET
    handler of either file changes a station. *)
Theorem servers_agree (reqs : list request) (ds : list Distributore) :
  registry_after app_serve reqs ds = registry_after api_server_serve reqs ds /\
  registry_after app_serve reqs ds =
    registry_after app_serve (List.filter is_put reqs) ds.
Proof.
  unfold registry_after. revert ds.
  induction reqs as [| req reqs IH]; intros ds; [now split |].
  cbn [fold_left List.filter].
  rewrite api_server_serve_registry.
  destruct (IH (snd (app_serve req ds))) as [IH1 IH2].
  split.
  - rewrite IH1. now rewrite app_serve_registry.
  - rewrite IH2. destruct req; cbn [is_put fold_left];
      try reflexivity; now rewrite app_serve_registry.
Qed.

Lemma bulk_update_registry_ok (prov : string) (data : json)
    (ds : list Distributore) :
  registry_ok ds ->
  registry_ok (snd (api_cambia_prezzi_provincia prov data ds)).
Proof.
  intros [Hnd Hall]. split.
  - replace (map id (snd (api_cambia_prezzi_provincia prov data ds)))
      with (map id ds); [assumption |].
    apply Forall2_map_eq. apply handler_Forall2; [reflexivity |].
    intros tipo p x y ->.
    pose proof (set_prezzo_frame tipo p y) as Hf. unfold senza_prezzi in Hf.
    congruence.
  - revert Hall. apply Forall2_Forall_impl.
    apply handler_Forall2; [tauto |].
    intros tipo p x y Hxy Hx. destruct (Hxy Hx) as (Hb & Hd & Hp).
    pose proof (set_prezzo_frame tipo p y) as Hf. unfold senza_prezzi in Hf.
    injection Hf as _ _ _ _ _ _ Hsb Hsd. rewrite Hsb, Hsd.
    repeat split; try apply Hb; try apply Hd; now apply set_prezzo_prezzi_ok.
Qed.

Lemma registry_after_keeps
    (serve : request -> Py (list Distributore) flask_result)
    (P : list Distributore -> Prop) (reqs : list request)
    (ds : list Distributore) :
  (forall req ds, P ds -> P (snd (serve req ds))) ->
  P ds -> P (registry_after serve reqs ds).
Proof.
  intros Hstep. unfold registry_after. revert ds.
  induction reqs as [| req reqs IH]; intros ds Hds; [assumption |].
  cbn [fold_left]. apply IH. now apply Hstep.
Qed.

(** X16: a registry with unique ids, tanks within capacity and no price
    below 0 stays such under any run of requests to either server,
    whatever the requests carry and however each one ends.  (Below 0 is
    what [set_prezzo] tests with [<]: NaN is not below 0, and a request
    can leave it for a price.) *)
Theorem registry_ok_preserved (reqs : list request) (ds : list Distributore) :
  registry_ok ds ->
  registry_ok (registry_after app_serve reqs ds) /\
  registry_ok (registry_after api_server_serve reqs ds).
Proof.
  intros Hok. split; apply registry_after_keeps; try assumption.
  - intros req ds' Hds'. rewrite app_serve_registry.
    destruct req; try assumption. now apply bulk_update_registry_ok.
  - intros req ds' Hds'. rewrite api_server_serve_registry.
    destruct req; try assumption. now apply bulk_update_registry_ok.
Qed.

End Frame.

Lemma seed_registry_ok : registry_ok _distributori.
Proof.
  split; [exact seed_ids_unique |].
  repeat constructor; apply Qle_bool_imp_le; reflexivity.
Qed.

Lemma registry_ok_preserved_witness :
  let reqs := [ PutPrezzi "MI" (JObj [("diesel", JNum (-1.5))]);
                GetElenco;
                PutPrezzi "to" (JObj [("benzina", JStr "nan")]);
                GetLivelliDistributore 999 ] in
  registry_ok (registry_after (app_serve (py := ascii_python)) reqs _distributori) /\
  registry_ok (registry_after (api_server_serve (py := ascii_python)) reqs
                 _distributori).
Proof.
  intros reqs.
  exact (registry_ok_preserved (py := ascii_python) reqs _distributori
           seed_registry_ok).
Defined.

(** ** Price updates in sequence *)

Lemma applica_prezzi_compose (b1 d1 b2 d2 : option pyfloat) (x : Distributore) :
  applica_prezzi b2 d2 (applica_prezzi b1 d1 x) =
  applica_prezzi (later b2 b1) (later d2 d1) x.
Proof. destruct b1, d1, b2, d2; reflexivity. Qed.

Lemma applica_prezzi_provincia (b d : option pyfloat) (x : Distributore) :
  provincia (applica_prezzi b d x) = provincia x.
Proof. destruct b, d; reflexivity. Qed.

Lemma applica_prezzi_id (b d : option pyfloat) (x : Distributore) :
  id (applica_prezzi b d x) = id x.
Proof. destruct b, d; reflexivity. Qed.

Lemma later_same (p : option pyfloat) : later p p = p.
Proof. now destruct p. Qed.

Section UpdateSequences.

Context {py : Python}.

Lemma in_provincia_applica (prov : string) (b d : option pyfloat)
    (x : Distributore) :
  in_provincia prov (applica_prezzi b d x) = in_provincia prov x.
Proof. unfold in_provincia. now rewrite applica_prezzi_provincia. Qed.

Lemma aggiorna_provincia_compose (prov : string)
    (b1 d1 b2 d2 : option pyfloat) (ds : list Distributore) :
  aggiorna_provincia prov b2 d2 (aggiorna_provincia prov b1 d1 ds) =
  aggiorna_provincia prov (later b2 b1) (later d2 d1) ds.
Proof.
  unfold aggiorna_provincia. rewrite map_map. apply map_ext. intros x.
  destruct (in_provincia prov x) eqn:Hx.
  - now rewrite in_provincia_applica, Hx, applica_prezzi_compose.
  - now rewrite Hx.
Qed.

Lemma ids_provincia_aggiorna (prov p : string) (b d : option pyfloat)
    (ds : list Distributore) :
  ids_provincia prov (aggiorna_provincia p b d ds) = ids_provincia prov ds.
Proof.
  unfold ids_provincia, aggiorna_provincia.
  induction ds as [| x ds IH]; [reflexivity |]. cbn [map List.filter].
  destruct (in_provincia p x);
    rewrite ?in_provincia_applica;
    destruct (in_provincia prov x); cbn [map];
    now rewrite ?applica_prezzi_id, IH.
Qed.

Lemma aggiorna_provincia_commute (p1 p2 : string)
    (b1 d1 b2 d2 : option pyfloat) (ds : list Distributore) :
  str_lower p1 <> str_lower p2 ->
  aggiorna_provincia p2 b2 d2 (aggiorna_provincia p1 b1 d1 ds) =
  aggiorna_provincia p1 b1 d1 (aggiorna_provincia p2 b2 d2 ds).
Proof.
  intros Hne. unfold aggiorna_provincia. rewrite !map_map. apply map_ext.
  intros x.
  destruct (in_provincia p1 x) eqn:H1, (in_provincia p2 x) eqn:H2;
    rewrite ?in_provincia_applica, ?H1, ?H2; try reflexivity.
  apply in_provincia_iff in H1, H2. exfalso. apply Hne. congruence.
Qed.

(** X17: a price update that is accepted can be sent again: the second
    answer is the first one and the registry does not move. *)
Theorem bulk_update_idempotent (prov : string) (items : list (string * json))
    (ds : list Distributore) (benzina diesel : option pyfloat) :
  converts (dict_get items "benzina") benzina ->
  converts (dict_get items "diesel") diesel ->
  non_negative benzina -> non_negative diesel ->
  is_Some benzina \/ is_Some diesel ->
  api_cambia_prezzi_provincia prov (JObj items)
    (snd (api_cambia_prezzi_provincia prov (JObj items) ds)) =
  api_cambia_prezzi_provincia prov (JObj items) ds.
Proof.
  intros Hb Hd Hnb Hnd Hsome.
  rewrite (bulk_update_run prov items ds benzina diesel) by assumption.
  cbn [snd].
  rewrite (bulk_update_run prov items _ benzina diesel) by assumption.
  now rewrite ids_provincia_aggiorna, aggiorna_provincia_compose, !later_same.
Qed.

(** X18: of two accepted updates of one province the later one wins,
    fuel by fuel: together they are one update with the second body's
    prices and, where it has none, the first body's; the second answer
    lists the same ids. *)
Theorem bulk_update_last_wins (prov : string)
    (items1 items2 : list (string * json)) (ds : list Distributore)
    (b1 d1 b2 d2 : option pyfloat) :
  converts (dict_get items1 "benzina") b1 ->
  converts (dict_get items1 "diesel") d1 ->
  non_negative b1 -> non_negative d1 -> is_Some b1 \/ is_Some d1 ->
  converts (dict_get items2 "benzina") b2 ->
  converts (dict_get items2 "diesel") d2 ->
  non_negative b2 -> non_negative d2 -> is_Some b2 \/ is_Some d2 ->
  api_cambia_prezzi_provincia prov (JObj items2)
    (snd (api_cambia_prezzi_provincia prov (JObj items1) ds)) =
  (Returned (risposta_aggiornati (ids_provincia prov ds)),
   aggiorna_provincia prov (later b2 b1) (later d2 d1) ds).
Proof.
  intros Hb1 Hd1 Hnb1 Hnd1 Hs1 Hb2 Hd2 Hnb2 Hnd2 Hs2.
  rewrite (bulk_update_run prov items1 ds b1 d1) by assumption.
  cbn [snd].
  rewrite (bulk_update_run prov items2 _ b2 d2) by assumption.
  now rewrite ids_provincia_aggiorna, aggiorna_provincia_compose.
Qed.

(** X19: accepted updates of two provinces whose codes [lower()] tells
    apart can be applied in either order: the registry ends the same. *)
Theorem bulk_update_commute (p1 p2 : string)
    (items1 items2 : list (string * json)) (ds : list Distributore)
    (b1 d1 b2 d2 : option pyfloat) :
  str_lower p1 <> str_lower p2 ->
  converts (dict_get items1 "benzina") b1 ->
  converts (dict_get items1 "diesel") d1 ->
  non_negative b1 -> non_negative d1 -> is_Some b1 \/ is_Some d1 ->
  converts (dict_get items2 "benzina") b2 ->
  converts (dict_get items2 "diesel") d2 ->
  non_negative b2 -> non_negative d2 -> is_Some b2 \/ is_Some d2 ->
  snd (api_cambia_prezzi_provincia p2 (JObj items2)
         (snd (api_cambia_prezzi_provincia p1 (JObj items1) ds))) =
  snd (api_cambia_prezzi_provincia p1 (JObj items1)
         (snd (api_cambia_prezzi_provincia p2 (JObj items2) ds))).
Proof.
  intros Hne Hb1 Hd1 Hnb1 Hnd1 Hs1 Hb2 Hd2 Hnb2 Hnd2 Hs2.
  rewrite (bulk_update_run p1 items1 ds b1 d1) by assumption.
  rewrite (bulk_update_run p2 items2 ds b2 d2) by assumption.
  cbn [snd].
  rewrite (bulk_update_run p2 items2 _ b2 d2) by assumption.
  rewrite (bulk_update_run p1 items1 _ b1 d1) by assumption.
  cbn [snd]. now apply aggiorna_provincia_commute.
Qed.

(** X20: after an accepted update the map handler of either file shows,
    for each station of the province, the prices of the body (and the
    old price of a fuel the body leaves out), and for every other
    station the entry it showed before. *)
Theorem map_reflects_update (prov : string) (items : list (string * json))
    (ds : list Distributore) (benzina diesel : option pyfloat) :
  converts (dict_get items "benzina") benzina ->
  converts (dict_get items "diesel") diesel ->
  non_negative benzina -> non_negative diesel ->
  is_Some benzina \/ is_Some diesel ->
  let ds' := snd (api_cambia_prezzi_provincia prov (JObj items) ds) in
  fst (App.api_mappa_distributori ds') =
    Returned {| status := 200;
                body := JArr (map (fun d =>
                  if in_provincia prov d
                  then mappa_dict (applica_prezzi benzina diesel d)
                  else mappa_dict d) ds) |} /\
  ApiServer.api_mappa_distributori ds' = App.api_mappa_distributori ds' /\
  (forall d,
     obj_get (mappa_dict (applica_prezzi benzina diesel d)) "prezzo_benzina" =
       Some (JNum (match benzina with Some p => p | None => prezzo_benzina d end)) /\
     obj_get (mappa_dict (applica_prezzi benzina diesel d)) "prezzo_diesel" =
       Some (JNum (match diesel with Some p => p | None => prezzo_diesel d end))).
Proof.
  intros Hb Hd Hnb Hnd Hsome ds'. subst ds'.
  rewrite (bulk_update_run prov items ds benzina diesel) by assumption.
  cbn [snd]. split; [| split; [reflexivity |]].
  - unfold App.api_mappa_distributori. rewrite bind_get. unfold ret. cbn [fst].
    unfold aggiorna_provincia. rewrite map_map.
    do 3 f_equal. apply map_ext. intros d.
    now destruct (in_provincia prov d).
  - intros d. destruct benzina, diesel; split; reflexivity.
Qed.

(** ** Bodies and provinces at the edges *)

(** X21: only a JSON object can change a price: on any other body the
    handler leaves the registry as it was and answers 400, or lets the
    [TypeError] of the membership test out (a number other than 0,
    [true]). *)
Theorem non_object_body (prov : string) (data : json) (ds : list Distributore) :
  (forall items, data <> JObj items) ->
  snd (api_cambia_prezzi_provincia prov data ds) = ds /\
  (http_status (fst (api_cambia_prezzi_provincia prov data ds)) = 400%Z \/
   fst (api_cambia_prezzi_provincia prov data ds) = Raised TypeError).
Proof.
  intros Hobj. unfold api_cambia_prezzi_provincia, valida_prezzi.
  destruct data as [| b | n | x | s | xs | items];
    try (now elim (Hobj items)).
  - now split; [| left].
  - destruct b; cbn; now split; [| first [left; reflexivity | right; reflexivity]].
  - destruct (truthy (JInt n)); cbn;
      now split; [| first [left; reflexivity | right; reflexivity]].
  - destruct (truthy (JNum x)); cbn;
      now split; [| first [left; reflexivity | right; reflexivity]].
  - destruct (truthy (JStr s)); cbn [negb]; cbv iota; [| now split; [| left]].
    unfold leggi_prezzo, py_in, py_getitem.
    destruct (substring_of "benzina" s); [now split; [| left] |].
    destruct (substring_of "diesel" s); now split; [| left].
  - destruct (truthy (JArr xs)); cbn [negb]; cbv iota; [| now split; [| left]].
    unfold leggi_prezzo, py_in, py_getitem.
    destruct (existsb _ xs); [now split; [| left] |].
    destruct (existsb _ xs); now split; [| left].
Qed.

(** X22: where no station is of the province, every body that passes
    validation gets a 200 with an empty list and leaves the registry as
    it was: the prices are never looked at, so a negative one passes. *)
Theorem no_station_no_check (prov : string) (data : json)
    (nuovi_prezzi : gmap string pyfloat) (ds : list Distributore) :
  valida_prezzi data = Returned (inr nuovi_prezzi) ->
  (forall d, In d ds -> in_provincia prov d = false) ->
  api_cambia_prezzi_provincia prov data ds =
  (Returned (risposta_aggiornati []), ds).
Proof.
  intros Hval Hnone. unfold api_cambia_prezzi_provincia. rewrite Hval.
  rewrite for_in_skip; [reflexivity |].
  intros d Hd. apply aggiorna_skip. now apply Hnone.
Qed.

(** X23: how far a price below 0 gets.  The handler raises at the first
    station of the province and goes no further.  A benzina price below
    0 leaves the whole registry as it was; a diesel price below 0 after
    a benzina price that is absent or not below 0 leaves that one
    station with the new benzina price and its old diesel price, and
    every other station as it was. *)
Theorem negative_price_extent (prov : string) (items : list (string * json))
    (before after : list Distributore) (d : Distributore)
    (benzina diesel : option pyfloat) :
  converts (dict_get items "benzina") benzina ->
  converts (dict_get items "diesel") diesel ->
  (forall x, In x before -> in_provincia prov x = false) ->
  in_provincia prov d = true ->
  (forall p, benzina = Some p -> negative p = true ->
     api_cambia_prezzi_provincia prov (JObj items) (before ++ d :: after) =
     (Raised (ValueError "Prezzo negativo"), before ++ d :: after)) /\
  (forall p, non_negative benzina -> diesel = Some p -> negative p = true ->
     api_cambia_prezzi_provincia prov (JObj items) (before ++ d :: after) =
     (Raised (ValueError "Prezzo negativo"),
      before ++ applica_prezzi benzina None d :: after)).
Proof.
  intros Hb Hd Hbefore Hmatch. split.
  - intros p Hp Hneg.
    now apply (bulk_update_raises_benzina prov items before after d
                 benzina diesel p).
  - intros p Hnb Hp Hneg.
    now apply (bulk_update_raises_diesel prov items before after d
                 benzina diesel p).
Qed.

(** X24: the bodies that get a 400: one that is missing or malformed
    (or otherwise false), one on which both membership tests answer
    False, and an object with a benzina or diesel value on which
    [float] raises.  The registry is as it was. *)
Theorem bad_request_spec (prov : string) (data : json) (ds : list Distributore) :
  truthy data = false \/
  (py_in "benzina" data = Returned false /\ py_in "diesel" data = Returned false) \/
  (exists items, data = JObj items /\
     (rejects (dict_get items "benzina") \/ rejects (dict_get items "diesel"))) ->
  exists r, api_cambia_prezzi_provincia prov data ds = (Returned r, ds) /\
            status r = 400%Z.
Proof.
  intros [Hfalse | [[Hb Hd] | (items & -> & Hrej)]].
  - exists (error_response "Richiesta JSON mancante"). split; [| reflexivity].
    apply handler_early_return. unfold valida_prezzi. now rewrite Hfalse.
  - destruct (truthy data) eqn:Htruthy.
    + exists (error_response "Nessun prezzo fornito"). split; [| reflexivity].
      apply handler_early_return. unfold valida_prezzi, leggi_prezzo.
      rewrite Htruthy, Hb, Hd. reflexivity.
    + exists (error_response "Richiesta JSON mancante"). split; [| reflexivity].
      apply handler_early_return. unfold valida_prezzi. now rewrite Htruthy.
  - destruct (valida_rejects items Hrej) as [msg Hmsg].
    exists (error_response msg). split; [| reflexivity].
    now apply handler_early_return.
Qed.

End UpdateSequences.

Lemma bulk_update_idempotent_witness :
  let body := JObj [("benzina", JNum 1.77); ("diesel", JNum 1.66)] in
  api_cambia_prezzi_provincia (py := ascii_python) "MI" body
    (snd (api_cambia_prezzi_provincia (py := ascii_python) "MI" body
            _distributori)) =
  api_cambia_prezzi_provincia (py := ascii_python) "MI" body _distributori.
Proof.
  intros body.
  apply (bulk_update_idempotent (py := ascii_python) "MI"
           [("benzina", JNum 1.77); ("diesel", JNum 1.66)] _distributori
           (Some (Fin 1.77)) (Some (Fin 1.66))); seed_price_hyp.
Defined.

Lemma bulk_update_last_wins_witness :
  api_cambia_prezzi_provincia (py := ascii_python) "MI"
    (JObj [("diesel", JNum 1.5)])
    (snd (api_cambia_prezzi_provincia (py := ascii_python) "MI"
            (JObj [("benzina", JNum 1.77); ("diesel", JNum 1.66)]) _distributori)) =
  (Returned (risposta_aggiornati (ids_provincia (py := ascii_python) "MI"
                                    _distributori)),
   aggiorna_provincia (py := ascii_python) "MI"
     (Some (Fin 1.77)) (Some (Fin 1.5)) _distributori).
Proof.
  apply (bulk_update_last_wins (py := ascii_python) "MI"
           [("benzina", JNum 1.77); ("diesel", JNum 1.66)]
           [("diesel", JNum 1.5)] _distributori
           (Some (Fin 1.77)) (Some (Fin 1.66)) None (Some (Fin 1.5)));
    seed_price_hyp.
Defined.

Lemma bulk_update_commute_witness :
  snd (api_cambia_prezzi_provincia (py := ascii_python) "TO"
         (JObj [("diesel", JNum 1.5)])
         (snd (api_cambia_prezzi_provincia (py := ascii_python) "MI"
                 (JObj [("benzina", JNum 1.77)]) _distributori))) =
  snd (api_cambia_prezzi_provincia (py := ascii_python) "MI"
         (JObj [("benzina", JNum 1.77)])
         (snd (api_cambia_prezzi_provincia (py := ascii_python) "TO"
                 (JObj [("diesel", JNum 1.5)]) _distributori))).
Proof.
  apply (bulk_update_commute (py := ascii_python) "MI" "TO"
           [("benzina", JNum 1.77)] [("diesel", JNum 1.5)] _distributori
           (Some (Fin 1.77)) None None (Some (Fin 1.5)));
    try seed_price_hyp.
  discriminate.
Defined.

Lemma map_reflects_update_witness :
  let ds' := snd (api_cambia_prezzi_provincia (py := ascii_python) "MI"
                    (JObj [("benzina", JNum 1.77)]) _distributori) in
  fst (App.api_mappa_distributori ds') =
    Returned {| status := 200;
                body := JArr (map (fun d =>
                  if in_provincia (py := ascii_python) "MI" d
                  then mappa_dict (applica_prezzi (Some (Fin 1.77)) None d)
                  else mappa_dict d) _distributori) |}.
Proof.
  apply (map_reflects_update (py := ascii_python) "MI" [("benzina", JNum 1.77)]
           _distributori (Some (Fin 1.77)) None); seed_price_hyp.
Defined.

Lemma non_object_body_witness :
  snd (api_cambia_prezzi_provincia (py := ascii_python) "MI"
         (JArr [JStr "benzina"]) _distributori) = _distributori /\
  (http_status (fst (api_cambia_prezzi_provincia (py := ascii_python) "MI"
                       (JArr [JStr "benzina"]) _distributori)) = 400%Z \/
   fst (api_cambia_prezzi_provincia (py := ascii_python) "MI"
          (JArr [JStr "benzina"]) _distributori) = Raised TypeError).
Proof.
  apply (non_object_body (py := ascii_python) "MI" (JArr [JStr "benzina"])
           _distributori).
  intros items. discriminate.
Defined.

Lemma no_station_no_check_witness :
  api_cambia_prezzi_provincia (py := ascii_python) "XX"
    (JObj [("diesel", JNum (-1.5))]) _distributori =
  (Returned (risposta_aggiornati []), _distributori).
Proof.
  apply (no_station_no_check (py := ascii_python) "XX"
           (JObj [("diesel", JNum (-1.5))])
           (prezzi_map None (Some (Fin (-1.5)))) _distributori).
  - apply (valida_converts (py := ascii_python) [("diesel", JNum (-1.5))]
             None (Some (Fin (-1.5))));
      [reflexivity | reflexivity | right; eexists; reflexivity].
  - intros d Hd. simpl in Hd.
    repeat destruct Hd as [<- | Hd]; try reflexivity. contradiction.
Defined.

Lemma negative_price_extent_witness :
  match _distributori with
  | d :: after =>
      api_cambia_prezzi_provincia (py := ascii_python) "MI"
        (JObj [("benzina", JNum 1.5); ("diesel", JNum (-1))]) ([] ++ d :: after) =
      (Raised (ValueError "Prezzo negativo"),
       [] ++ applica_prezzi (Some (Fin 1.5)) None d :: after)
  | [] => True
  end.
Proof.
  cbv beta iota delta [_distributori].
  refine (proj2 (negative_price_extent (py := ascii_python) "MI"
                   [("benzina", JNum 1.5); ("diesel", JNum (-1))] [] _ _
                   (Some (Fin 1.5)) (Some (Fin (-1))) _ _ _ _) (Fin (-1)) _ _ _);
    try reflexivity.
  intros x [].
Defined.

Lemma bad_request_spec_witness :
  exists r,
    api_cambia_prezzi_provincia (py := ascii_python) "MI"
      (JObj [("benzina", JStr "abc")]) _distributori = (Returned r, _distributori) /\
    status r = 400%Z.
Proof.
  apply (bad_request_spec (py := ascii_python) "MI"
           (JObj [("benzina", JStr "abc")]) _distributori).
  right. right. exists [("benzina", JStr "abc")]. split; [reflexivity |].
  left. exists (JStr "abc"), (ValueError "could not convert string to float").
  split; reflexivity.
Defined.
